(** * Weather forecast application (dsprog2_2025, lecture-5 and lecture-5_dbver)

    A shallow embedding of the forecast normalizer ([_parse_jma_data] with its
    helpers), of the persisted store ([WeatherDB]) and of the data-access
    policy ([DataManager.fetch_weather_data], [WeatherApp.add_region],
    [WeatherApp.remove_region]).

    Two variants of the normalizer exist in the repository:
    - [lecture-5_dbver/weather_app/src/rewrite_.py]  (module [Rewrite] below),
    - [lecture-5/weather_app/src/mfin.py]            (module [Mfin] below).

    Python values decoded from JSON are modelled by the type [json]; every
    Python operation the code applies to such a value is modelled on every
    shape of value, raising the exception Python raises.  Three library
    functions whose full behaviour is outside the repository ([int] applied
    to a [str], [datetime.datetime.fromisoformat] and [repr] of floats and
    containers) are the fields of the class [PyRuntime]; the theorems hold for
    every instance, and [ascii_runtime] is an instance used to run examples. *)

From Stdlib Require Import ZArith Ascii String DecimalString OrdersEx Permutation.
From stdpp Require Import base tactics option list list_monad sorting strings gmap.

Local Open Scope Z_scope.
#[local] Set Warnings "-register-all".

(** ** Python values *)

(** A Python [float]: its exact value [m * 2^e], an infinity or a NaN
    ([json.loads] accepts [Infinity] and [NaN]). *)
Inductive pyfloat : Type :=
| FFinite (m e : Z)
| FInf (negative : bool)
| FNaN.

(** What [json.loads] returns.  A [dict] keeps its insertion order, so it is
    an association list; [json.loads] never yields two equal keys. *)
Inductive json : Type :=
| JNull
| JBool (b : bool)
| JInt (n : Z)
| JFloat (f : pyfloat)
| JStr (s : string)
| JList (items : list json)
| JDict (fields : list (string * json)).

(** ** Exceptions *)

Inductive exn : Type :=
| KeyError | IndexError | TypeError | ValueError | AttributeError
| OverflowError | RequestException | JSONDecodeError
| KeyboardInterrupt | SystemExit.

(** [except Exception] catches every class but the two that derive from
    [BaseException] only. *)
Definition is_Exception (e : exn) : bool :=
  match e with
  | KeyboardInterrupt | SystemExit => false
  | _ => true
  end.

Inductive result (A : Type) : Type :=
| Ok (a : A)
| Raise (e : exn).
Arguments Ok {A} a.
Arguments Raise {A} e.

#[global] Instance result_ret : MRet result := fun A a => Ok a.
#[global] Instance result_bind : MBind result := fun A B f r =>
  match r with
  | Ok a => f a
  | Raise e => Raise e
  end.

(** [try: body  except Exception: handler] *)
Definition try_except {A} (body : result A) (handler : exn -> result A) : result A :=
  match body with
  | Ok a => Ok a
  | Raise e => if is_Exception e then handler e else Raise e
  end.

(** [try: body  except: handler] (a bare [except] catches everything) *)
Definition try_except_all {A} (body : result A) (handler : exn -> A) : A :=
  match body with
  | Ok a => a
  | Raise e => handler e
  end.

(** ** Strings as sequences of code points *)

(** A [str] is held as its UTF-8 bytes; Python indexes and measures it by
    code point.  A byte [10xxxxxx] continues the code point before it. *)
Definition is_continuation (a : ascii) : bool :=
  let n := nat_of_ascii a in (128 <=? n)%nat && (n <? 192)%nat.

Fixpoint codepoints (s : string) : list string :=
  match s with
  | EmptyString => []
  | String a rest =>
      match codepoints rest with
      | String b t :: more =>
          if is_continuation b then String a (String b t) :: more
          else String a EmptyString :: String b t :: more
      | other => String a EmptyString :: other
      end
  end.

(** [needle in hay] for two [str] *)
Fixpoint is_substring (needle hay : string) : bool :=
  String.prefix needle hay ||
  match hay with
  | EmptyString => false
  | String _ rest => is_substring needle rest
  end.

(** ** Python operations on decoded JSON *)

Definition float_truthy (f : pyfloat) : bool :=
  match f with
  | FFinite m _ => negb (m =? 0)
  | _ => true
  end.

(** [int(f)]: truncation toward zero; [OverflowError] on an infinity and
    [ValueError] on a NaN. *)
Definition float_to_int (f : pyfloat) : result Z :=
  match f with
  | FFinite m e => if 0 <=? e then Ok (m * 2 ^ e) else Ok (Z.quot m (2 ^ (- e)))
  | FInf _ => Raise OverflowError
  | FNaN => Raise ValueError
  end.

(** [bool(v)] *)
Definition truthy (v : json) : bool :=
  match v with
  | JNull => false
  | JBool b => b
  | JInt n => negb (n =? 0)
  | JFloat f => float_truthy f
  | JStr s => negb (String.eqb s "")
  | JList l => match l with [] => false | _ => true end
  | JDict d => match d with [] => false | _ => true end
  end.

(** [v == s] for a [str] literal [s] *)
Definition eq_str (v : json) (s : string) : bool :=
  match v with
  | JStr t => String.eqb t s
  | _ => false
  end.

Fixpoint assoc (k : string) (d : list (string * json)) : option json :=
  match d with
  | [] => None
  | (k', v) :: rest => if String.eqb k k' then Some v else assoc k rest
  end.

Definition has_key (k : string) (keys : list string) : bool :=
  existsb (String.eqb k) keys.

(** [v[k]] for a [str] literal [k] *)
Definition getitem_key (v : json) (k : string) : result json :=
  match v with
  | JDict d => match assoc k d with Some x => Ok x | None => Raise KeyError end
  | _ => Raise TypeError
  end.

(** [v[i]] for an [int] [i >= 0]; a [dict] decoded from JSON has [str] keys
    only, so an [int] subscript is a [KeyError]. *)
Definition getitem_idx (v : json) (i : nat) : result json :=
  match v with
  | JList l => match l !! i with Some x => Ok x | None => Raise IndexError end
  | JStr s => match codepoints s !! i with Some c => Ok (JStr c) | None => Raise IndexError end
  | JDict _ => Raise KeyError
  | _ => Raise TypeError
  end.

(** [v.get(k)] *)
Definition py_get (v : json) (k : string) : result json :=
  match v with
  | JDict d => Ok (default JNull (assoc k d))
  | _ => Raise AttributeError
  end.

(** [v.keys()] *)
Definition py_keys (v : json) : result (list string) :=
  match v with
  | JDict d => Ok (d.*1)
  | _ => Raise AttributeError
  end.

(** [k in v] for a [str] literal [k] *)
Definition contains_str (k : string) (v : json) : result bool :=
  match v with
  | JDict d => Ok (has_key k (d.*1))
  | JList l => Ok (existsb (fun x => eq_str x k) l)
  | JStr s => Ok (is_substring k s)
  | _ => Raise TypeError
  end.

(** [len(v)] *)
Definition py_len (v : json) : result nat :=
  match v with
  | JList l => Ok (length l)
  | JDict d => Ok (length d)
  | JStr s => Ok (length (codepoints s))
  | _ => Raise TypeError
  end.

(** The items [for x in v] visits. *)
Definition py_iter (v : json) : result (list json) :=
  match v with
  | JList l => Ok l
  | JDict d => Ok (JStr <$> d.*1)
  | JStr s => Ok (JStr <$> codepoints s)
  | _ => Raise TypeError
  end.

(** Decimal text of an [int], as [str] and f-strings print it. *)
Definition dec (n : Z) : string := NilZero.string_of_int (Z.to_int n).

(** ** Library functions outside the repository *)

Class PyRuntime : Type := {
  (** [int(s)] for a [str]; [None] is [ValueError] *)
  int_of_str : string -> option Z;
  (** [(dt.month, dt.day)] for [dt = datetime.datetime.fromisoformat(s)];
      [None] is [ValueError] *)
  fromisoformat : string -> option (Z * Z);
  (** [repr] of a float, a list or a dict *)
  repr_compound : json -> string
}.

(** ** Records the normalizer produces *)

(** [ft.Icons.*] and [ft.Colors.*] constants the code uses *)
Inductive Icon : Type := WB_SUNNY | CLOUD | WATER_DROP | AC_UNIT | HELP_OUTLINE.
Inductive Color : Type := ORANGE | GREY | BLUE | CYAN.

(** [{"day": .., "icon": .., "status": .., "temp": .., "color": ..}] *)
Record ForecastEntry : Type := {
  day : string;
  icon : Icon;
  status : string;
  temp : string;
  color : Color
}.

(** [{"area_name": .., "forecasts": [..]}]; the name is whatever value the
    upstream document holds under [area.name]. *)
Record SubregionForecast : Type := {
  area_name : json;
  forecasts : list ForecastEntry
}.

(** An element of [weekly_temp_data]:
    [{"type": "weekly", "mins": .., "maxs": ..}] or
    [{"type": "daily", "temps": ..}]. *)
Inductive weekly_temps : Type :=
| Weekly (mins maxs : json)
| Daily (temps : json).

(** ** The normalizer, shared by both variants

    [_parse_jma_data] of [rewrite_.py] and of [mfin.py] differ in the names
    of the two weather-code helpers and in the temperature text (a method in
    the first, inline code in the second); these three are the parameters of
    [parse_body].  ([mfin.py] records the short-term series in
    [st_temp_series] and collects its temperatures after the loop; the values
    and the exceptions are the same.) *)
Section Normalizer.
Context `{PyRuntime}.

(** [int(v)] *)
Definition py_int (v : json) : result Z :=
  match v with
  | JInt n => Ok n
  | JBool b => Ok (if b then 1 else 0)
  | JFloat f => float_to_int f
  | JStr s => match int_of_str s with Some n => Ok n | None => Raise ValueError end
  | _ => Raise TypeError
  end.

(** [f"{v}"] *)
Definition py_format (v : json) : string :=
  match v with
  | JStr s => s
  | JInt n => dec n
  | JNull => "None"
  | JBool b => if b then "True" else "False"
  | _ => repr_compound v
  end.

(** [dt = datetime.datetime.fromisoformat(t); f"{dt.month}/{dt.day}"] *)
Definition iso_label (t : json) : result string :=
  match t with
  | JStr s =>
      match fromisoformat s with
      | Some (m, d) => Ok (dec m +:+ "/" +:+ dec d)
      | None => Raise ValueError
      end
  | _ => Raise TypeError
  end.

Variable icon_and_color : json -> result (Icon * Color).
Variable status_text : json -> string.
Variable display_temp : option weekly_temps -> json -> nat -> result string.

(** The loop that fills [short_term_temps_map]; it stops at the first
    series whose first area has ["temps"]. *)
Fixpoint short_term_temps (series_list : list json) : result (list json) :=
  match series_list with
  | [] => Ok []
  | series :: rest =>
      a ← py_get series "areas";
      if truthy a then
        areas ← getitem_key series "areas";
        first ← getitem_idx areas 0;
        found ← contains_str "temps" first;
        if found : bool then
          areas' ← getitem_key series "areas";
          items ← py_iter areas';
          mapM (fun area => getitem_key area "temps") items
        else short_term_temps rest
      else short_term_temps rest
  end.

(** The loop that assigns [ts_weather] and [ts_temp] (no [break]: the last
    matching series wins). *)
Fixpoint select_series (series_list : list json) (ts_weather ts_temp : option json)
  : result (option json * option json) :=
  match series_list with
  | [] => Ok (ts_weather, ts_temp)
  | series :: rest =>
      a ← py_get series "areas";
      if negb (truthy a) then select_series rest ts_weather ts_temp
      else
        areas ← getitem_key series "areas";
        first ← getitem_idx areas 0;
        keys ← py_keys first;
        if has_key "weatherCodes" keys then select_series rest (Some series) ts_temp
        else if has_key "temps" keys || has_key "tempsMin" keys
             then select_series rest ts_weather (Some series)
             else select_series rest ts_weather ts_temp
  end.

(** [bool(x)] for a variable that is [None] or a series *)
Definition opt_truthy (x : option json) : bool :=
  match x with
  | Some v => truthy v
  | None => false
  end.

(** One element of [weekly_temp_data] from one area of [ts_temp] *)
Definition classify_area (area : json) : result weekly_temps :=
  has_min ← contains_str "tempsMin" area;
  if has_min : bool then
    mins ← getitem_key area "tempsMin";
    maxs ← getitem_key area "tempsMax";
    Ok (Weekly mins maxs)
  else
    temps ← getitem_key area "temps";
    Ok (Daily temps).

Definition build_weekly_temp_data (ts_temp : option json) : result (list weekly_temps) :=
  match ts_temp with
  | Some t =>
      if truthy t then
        areas ← getitem_key t "areas";
        items ← py_iter areas;
        mapM classify_area items
      else Ok []
  | None => Ok []
  end.

(** The inner loop [for i_time in range(len(time_defines))], over the
    steps still to visit. *)
Fixpoint forecast_steps (weather_codes : json) (current_weekly_temps : option weekly_temps)
    (current_short_temps : json) (formatted_dates : list string) (steps : list nat)
  : result (list ForecastEntry) :=
  match steps with
  | [] => Ok []
  | i_time :: rest =>
      n ← py_len weather_codes;
      if (n <=? i_time)%nat then Ok []
      else
        code ← getitem_idx weather_codes i_time;
        ic ← icon_and_color code;
        let status_text := status_text code in
        display_temp ← display_temp current_weekly_temps current_short_temps i_time;
        d ← match formatted_dates !! i_time with
            | Some d => Ok d
            | None => Raise IndexError
            end;
        more ← forecast_steps weather_codes current_weekly_temps current_short_temps
                 formatted_dates rest;
        Ok ({| day := d; icon := ic.1; status := status_text;
               temp := display_temp; color := ic.2 |} :: more)
  end.

(** The outer loop [for i_area, area_data in enumerate(ts_weather["areas"])] *)
Fixpoint build_areas (short_term_temps_map : list json) (weekly_temp_data : list weekly_temps)
    (time_defines : json) (formatted_dates : list string)
    (i_area : nat) (areas : list json) : result (list SubregionForecast) :=
  match areas with
  | [] => Ok []
  | area_data :: rest =>
      a ← getitem_key area_data "area";
      sub_area_name ← getitem_key a "name";
      weather_codes ← getitem_key area_data "weatherCodes";
      let current_weekly_temps := weekly_temp_data !! i_area in
      let current_short_temps := default (JList []) (short_term_temps_map !! i_area) in
      n_steps ← py_len time_defines;
      fs ← forecast_steps weather_codes current_weekly_temps current_short_temps
             formatted_dates (seq 0 n_steps);
      more ← build_areas short_term_temps_map weekly_temp_data time_defines formatted_dates
               (S i_area) rest;
      Ok ({| area_name := sub_area_name; forecasts := fs |} :: more)
  end.

(** [raw_json[1] if len(raw_json) > 1 else raw_json[0]] *)
Definition weekly_report (raw_json : json) : result json :=
  n ← py_len raw_json;
  if (1 <? n)%nat then getitem_idx raw_json 1 else getitem_idx raw_json 0.

(** The body of the [try] block of [_parse_jma_data] *)
Definition parse_body (raw_json : json) : result (list SubregionForecast) :=
  report_short ← getitem_idx raw_json 0;
  report_weekly ← weekly_report raw_json;
  ts_short ← getitem_key report_short "timeSeries";
  short_series ← py_iter ts_short;
  short_term_temps_map ← short_term_temps short_series;
  ts_week ← getitem_key report_weekly "timeSeries";
  week_series ← py_iter ts_week;
  sel ← select_series week_series None None;
  if negb (opt_truthy sel.1) then Ok []
  else
    weekly_temp_data ← build_weekly_temp_data sel.2;
    ts_weather ← match sel.1 with Some w => Ok w | None => Raise TypeError end;
    time_defines ← getitem_key ts_weather "timeDefines";
    tds ← py_iter time_defines;
    formatted_dates ← mapM iso_label tds;
    areas ← getitem_key ts_weather "areas";
    items ← py_iter areas;
    build_areas short_term_temps_map weekly_temp_data time_defines formatted_dates 0 items.

(** [try: <body>  except Exception as e: print(..); return []] *)
Definition parse_jma_data (raw_json : json) : result (list SubregionForecast) :=
  try_except (parse_body raw_json) (fun _ => Ok []).

End Normalizer.

(** ** [lecture-5_dbver/weather_app/src/db_manager.py]: [WeatherDB]

    The two tables are lists of rows in insertion (rowid) order.  The
    payload column [json_data] holds [json.dumps(parsed_data)] and is read
    back with [json.loads]; the model keeps the payload itself.  SQLite does
    not enforce [FOREIGN KEY] unless a connection turns it on, and the code
    never does, so the reference from [weather_history] to [saved_areas]
    constrains nothing.  Every statement is taken to succeed. *)

(** The two clock readings a call can take *)
Record Clock : Type := {
  iso_now : string;   (** [datetime.datetime.now().isoformat()] *)
  sql_now : string    (** [CURRENT_TIMESTAMP] *)
}.

Record SavedArea : Type := {
  sa_area_name : string;
  sa_area_code : string;
  sa_created_at : string
}.

Record HistoryRow : Type := {
  h_id : Z;
  h_area_name : string;
  h_json_data : list SubregionForecast;
  h_fetched_at : string;
  h_created_at : string
}.

(** The methods of [WeatherDB] the application calls, as a log *)
Inductive db_call : Type :=
| CallGetSavedAreas
| CallAddSavedArea (name code : string)
| CallRemoveSavedArea (name : string)
| CallSaveWeatherData (area_name : string)
| CallGetLatestWeatherData (area_name : string).

Record WeatherDB : Type := {
  saved_areas : list SavedArea;
  weather_history : list HistoryRow;
  history_seq : Z;              (** last [AUTOINCREMENT] id *)
  calls : list db_call          (** calls made so far, oldest first *)
}.

(** The store after [_create_tables] on a new file *)
Definition empty_db : WeatherDB :=
  {| saved_areas := []; weather_history := []; history_seq := 0; calls := [] |}.

Definition log_call (c : db_call) (d : WeatherDB) : WeatherDB :=
  {| saved_areas := saved_areas d; weather_history := weather_history d;
     history_seq := history_seq d; calls := calls d ++ [c] |}.

(** [a <= b] on [TEXT] values (byte order) *)
Definition text_le (a b : string) : bool :=
  match String_as_OT.compare a b with
  | Gt => false
  | _ => true
  end.

(** [ORDER BY created_at ASC]: a stable insertion sort (SQL leaves the order
    of equal keys open). *)
Fixpoint insert_by_created (r : SavedArea) (sorted : list SavedArea) : list SavedArea :=
  match sorted with
  | [] => [r]
  | x :: rest =>
      if text_le (sa_created_at r) (sa_created_at x) then r :: x :: rest
      else x :: insert_by_created r rest
  end.

Definition order_by_created (rows : list SavedArea) : list SavedArea :=
  foldr insert_by_created [] rows.

Definition get_saved_areas (d : WeatherDB) : list string * WeatherDB :=
  (sa_area_name <$> order_by_created (saved_areas d), log_call CallGetSavedAreas d).

Definition area_saved (name : string) (rows : list SavedArea) : bool :=
  existsb (fun r => String.eqb (sa_area_name r) name) rows.

(** [INSERT OR IGNORE INTO saved_areas (area_name, area_code) VALUES (?, ?)]:
    [area_name] is the primary key. *)
Definition add_saved_area (clk : Clock) (name code : string) (d : WeatherDB) : WeatherDB :=
  log_call (CallAddSavedArea name code)
    {| saved_areas :=
         if area_saved name (saved_areas d) then saved_areas d
         else saved_areas d ++
              [{| sa_area_name := name; sa_area_code := code; sa_created_at := sql_now clk |}];
       weather_history := weather_history d;
       history_seq := history_seq d;
       calls := calls d |}.

(** [DELETE FROM saved_areas WHERE area_name = ?] (the [DELETE] on
    [weather_history] is commented out in the source). *)
Definition remove_saved_area (name : string) (d : WeatherDB) : WeatherDB :=
  log_call (CallRemoveSavedArea name)
    {| saved_areas := filter (fun r => sa_area_name r ≠ name) (saved_areas d);
       weather_history := weather_history d;
       history_seq := history_seq d;
       calls := calls d |}.

(** [INSERT INTO weather_history (area_name, json_data, fetched_at)] *)
Definition save_weather_data (clk : Clock) (area_name : string)
    (parsed_data : list SubregionForecast) (fetched_at : option string) (d : WeatherDB)
  : WeatherDB :=
  log_call (CallSaveWeatherData area_name)
    {| saved_areas := saved_areas d;
       weather_history := weather_history d ++
         [{| h_id := history_seq d + 1;
             h_area_name := area_name;
             h_json_data := parsed_data;
             h_fetched_at := default (iso_now clk) fetched_at;
             h_created_at := sql_now clk |}];
       history_seq := history_seq d + 1;
       calls := calls d |}.

(** [WHERE area_name = ? ORDER BY fetched_at DESC LIMIT 1]: one pass that
    keeps the row with the greatest [fetched_at] seen so far (of equal ones,
    the oldest row).  Timestamps are compared as texts: that is SQLite's
    order for the texts of [isoformat()] the code stores, not for a text
    that reads as a number (see [kept_as_text]). *)
Fixpoint latest_row (name : string) (rows : list HistoryRow) (best : option HistoryRow)
  : option HistoryRow :=
  match rows with
  | [] => best
  | r :: rest =>
      if String.eqb (h_area_name r) name then
        match best with
        | None => latest_row name rest (Some r)
        | Some b =>
            if text_le (h_fetched_at r) (h_fetched_at b) then latest_row name rest best
            else latest_row name rest (Some r)
        end
      else latest_row name rest best
  end.

(** Returns [(data, fetched_at)], or [None] for Python's [(None, None)]. *)
Definition get_latest_weather_data (area_name : string) (d : WeatherDB)
  : option (list SubregionForecast * string) * WeatherDB :=
  ((fun r => (h_json_data r, h_fetched_at r)) <$> latest_row area_name (weather_history d) None,
   log_call (CallGetLatestWeatherData area_name) d).

(** [SELECT COUNT( * ) FROM weather_history [WHERE area_name = ?]]; the
    argument is [None] by default, and [if area_name:] sends the empty name
    to the unfiltered count too. *)
Definition get_weather_data_count (area_name : option string) (d : WeatherDB) : nat :=
  match area_name with
  | Some name =>
      if String.eqb name "" then length (weather_history d)
      else length (filter (fun r => h_area_name r = name) (weather_history d))
  | None => length (weather_history d)
  end.

Definition save_weather_cache (clk : Clock) (area_name : string)
    (parsed_data : list SubregionForecast) (d : WeatherDB) : WeatherDB :=
  save_weather_data clk area_name parsed_data None d.

Definition get_weather_cache (area_name : string) (d : WeatherDB)
  : option (list SubregionForecast * string) * WeatherDB :=
  get_latest_weather_data area_name d.

(** ** [lecture-5_dbver/weather_app/src/rewrite_.py]: [DataManager] helpers *)
Module Rewrite.
Section Helpers.
Context `{PyRuntime}.

Definition _get_weather_icon_and_color (code : json) : result (Icon * Color) :=
  c ← py_int code;
  if (100 <=? c) && (c <? 200) then Ok (WB_SUNNY, ORANGE)
  else if (200 <=? c) && (c <? 300) then Ok (CLOUD, GREY)
  else if (300 <=? c) && (c <? 400) then Ok (WATER_DROP, BLUE)
  else if (400 <=? c) && (c <? 500) then Ok (AC_UNIT, CYAN)
  else Ok (HELP_OUTLINE, GREY).

Definition _get_weather_status_text (code : json) : string :=
  try_except_all
    (c ← py_int code;
     if (100 <=? c) && (c <? 200) then Ok "晴れ"
     else if (200 <=? c) && (c <? 300) then Ok "くもり"
     else if (300 <=? c) && (c <? 400) then Ok "雨"
     else if (400 <=? c) && (c <? 500) then Ok "雪"
     else Ok "-")
    (fun _ => "-").

Definition _format_temperature (weekly_temps : option weekly_temps) (short_temps : json)
    (time_index : nat) : result string :=
  match weekly_temps with
  | Some (Weekly mins maxs) =>
      min_v ← getitem_idx mins time_index;
      max_v ← getitem_idx maxs time_index;
      if (eq_str min_v "" || eq_str max_v "") && (time_index =? 0)%nat then
        if truthy short_temps then
          n ← py_len short_temps;
          if (2 <=? n)%nat then
            t0 ← getitem_idx short_temps 0;
            t1 ← getitem_idx short_temps 1;
            Ok (py_format t0 +:+ "-" +:+ py_format t1 +:+ "°C")
          else if (n =? 1)%nat then
            t0 ← getitem_idx short_temps 0;
            Ok (py_format t0 +:+ "°C")
          else Ok "--"
        else Ok "--"
      else
        if truthy min_v && truthy max_v then
          Ok (py_format min_v +:+ "-" +:+ py_format max_v +:+ "°C")
        else if truthy max_v || truthy min_v then
          Ok (py_format (if truthy max_v then max_v else min_v) +:+ "°C")
        else Ok "--"
  | Some (Daily temps) =>
      val ← getitem_idx temps time_index;
      if truthy val then Ok (py_format val +:+ "°C") else Ok "--"
  | None => Ok "--"
  end.

Definition _parse_jma_data : json -> result (list SubregionForecast) :=
  parse_jma_data _get_weather_icon_and_color _get_weather_status_text _format_temperature.

End Helpers.

(** *** [DataManager] and [WeatherApp]: the data they hold

  [weather_data] is the in-memory cache; [name_to_id] and
  [area_name_list] are what [_load_area_data] leaves (from the cache file,
  the network or the fallback table) and are inputs here.  The widgets of
  [WeatherApp] are left out: only [current_saved_regions] and the
  [DataManager] carry data. *)
Record DataManager : Type := {
db : WeatherDB;
area_name_list : list string;
name_to_id : gmap string string;
weather_data : gmap string (list SubregionForecast)
}.

Record WeatherApp : Type := {
data_manager : DataManager;
current_saved_regions : list string
}.

Definition with_db (d : WeatherDB) (dm : DataManager) : DataManager :=
{| db := d; area_name_list := area_name_list dm; name_to_id := name_to_id dm;
   weather_data := weather_data dm |}.

Definition with_weather_data (w : gmap string (list SubregionForecast)) (dm : DataManager)
: DataManager :=
{| db := db dm; area_name_list := area_name_list dm; name_to_id := name_to_id dm;
   weather_data := w |}.

(** [bool(x)] for a list *)
Definition list_truthy {A} (l : list A) : bool :=
match l with
| [] => false
| _ => true
end.

(** [l.remove(x)]: drops the first occurrence *)
Fixpoint list_remove (x : string) (l : list string) : list string :=
match l with
| [] => []
| y :: rest => if String.eqb y x then rest else y :: list_remove x rest
end.

Section App.
Context `{PyRuntime}.

(** The [try] block of [fetch_weather_data].  [net] is what
    [requests.get(url, timeout=5)], [r.raise_for_status()] and [r.json()]
    yield together: the decoded document or the exception raised.  The
    value is [Some] of what a [return] inside the block returns, [None]
    when the block ends without returning. *)
Definition fetch_try (net : result json) (clk : Clock) (region_name : string)
    (dm : DataManager) : result (option (bool * option string)) * DataManager :=
  match net with
  | Raise e => (Raise e, dm)
  | Ok raw_json =>
      match _parse_jma_data raw_json with
      | Raise e => (Raise e, dm)
      | Ok parsed_data =>
          if list_truthy parsed_data then
            let dm1 := with_weather_data (<[region_name := parsed_data]> (weather_data dm)) dm in
            let dm2 := with_db (save_weather_cache clk region_name parsed_data (db dm1)) dm1 in
            (Ok (Some (true, Some "online")), dm2)
          else (Ok None, dm)
      end
  end.

(** The [except Exception as e:] block of [fetch_weather_data] *)
Definition fetch_except (region_name : string) (dm : DataManager)
  : result (bool * option string) * DataManager :=
  let (cached, d) := get_weather_cache region_name (db dm) in
  let dm1 := with_db d dm in
  match cached with
  | Some (cached_data, timestamp) =>
      if list_truthy cached_data then
        (Ok (true, Some timestamp),
         with_weather_data (<[region_name := cached_data]> (weather_data dm1)) dm1)
      else (Ok (false, None), dm1)
  | None => (Ok (false, None), dm1)
  end.

(** [fetch_weather_data(self, region_id, region_name)]; [region_id] only
    selects the URL whose reply is [net]. *)
Definition fetch_weather_data (net : result json) (clk : Clock)
    (region_id region_name : string) (dm : DataManager)
  : result (bool * option string) * DataManager :=
  match fetch_try net clk region_name dm with
  | (Ok (Some r), dm1) => (Ok r, dm1)
  | (Ok None, dm1) => (Ok (false, None), dm1)
  | (Raise e, dm1) =>
      if is_Exception e then fetch_except region_name dm1 else (Raise e, dm1)
  end.

(** [get_forecast_data] *)
Definition get_forecast_data (region_name : string) (dm : DataManager)
  : list SubregionForecast :=
  default [] (weather_data dm !! region_name).

(** What [update_weather_display] does to the data: a region absent from
    [weather_data] whose code is known and non-empty is fetched. *)
Definition update_weather_display (net : result json) (clk : Clock) (region_name : string)
    (app : WeatherApp) : result () * WeatherApp :=
  let dm := data_manager app in
  match weather_data dm !! region_name with
  | Some _ => (Ok (), app)
  | None =>
      match name_to_id dm !! region_name with
      | Some region_id =>
          if negb (String.eqb region_id "") then
            let (r, dm1) := fetch_weather_data net clk region_id region_name dm in
            (_ ← r; Ok (),
             {| data_manager := dm1; current_saved_regions := current_saved_regions app |})
          else (Ok (), app)
      | None => (Ok (), app)
      end
  end.

Definition region_saved (region_name : string) (l : list string) : bool :=
  existsb (String.eqb region_name) l.

(** [add_region] *)
Definition add_region (net : result json) (clk : Clock) (region_name : string)
    (app : WeatherApp) : result () * WeatherApp :=
  if String.eqb region_name "" || region_saved region_name (current_saved_regions app) then
    if negb (String.eqb region_name "") then update_weather_display net clk region_name app
    else (Ok (), app)
  else
    let dm := data_manager app in
    let code := default "" (name_to_id dm !! region_name) in
    let app1 :=
      {| data_manager := with_db (add_saved_area clk region_name code (db dm)) dm;
         current_saved_regions := current_saved_regions app ++ [region_name] |} in
    update_weather_display net clk region_name app1.

(** [remove_region] *)
Definition remove_region (region_name : string) (app : WeatherApp) : WeatherApp :=
  if region_saved region_name (current_saved_regions app) then
    let dm := data_manager app in
    {| data_manager := with_db (remove_saved_area region_name (db dm)) dm;
       current_saved_regions := list_remove region_name (current_saved_regions app) |}
  else app.

(** [WeatherApp.__init__] over the persisted store [store] *)
Definition WeatherApp_init (names : list string) (ids : gmap string string)
    (net : result json) (clk : Clock) (store : WeatherDB) : result () * WeatherApp :=
  let dm := {| db := store; area_name_list := names; name_to_id := ids;
               weather_data := ∅ |} in
  let (saved_from_db, d1) := get_saved_areas (db dm) in
  let app1 :=
    if list_truthy saved_from_db then
      {| data_manager := with_db d1 dm; current_saved_regions := saved_from_db |}
    else
      {| data_manager := with_db (add_saved_area clk "東京都" "130000" d1) dm;
         current_saved_regions := ["東京都"] |} in
  let first_city := default "東京都" (current_saved_regions app1 !! 0%nat) in
  update_weather_display net clk first_city app1.

(** The states the application goes through: a first start on a new
    store, a later start on the store a session left, and the three user
    actions that change data. *)
Inductive reachable : WeatherApp -> Prop :=
| reach_first names ids net clk :
    reachable (WeatherApp_init names ids net clk empty_db).2
| reach_restart app names ids net clk :
    reachable app ->
    reachable (WeatherApp_init names ids net clk (db (data_manager app))).2
| reach_add app net clk region_name :
    reachable app -> reachable (add_region net clk region_name app).2
| reach_remove app region_name :
    reachable app -> reachable (remove_region region_name app)
| reach_display app net clk region_name :
    reachable app -> reachable (update_weather_display net clk region_name app).2.

End App.
End Rewrite.

(** ** [lecture-5/weather_app/src/mfin.py]: [DataManager] helpers *)
Module Mfin.
Section Helpers.
Context `{PyRuntime}.

Definition _get_jma_icon_and_color (code : json) : result (Icon * Color) :=
  c ← py_int code;
  if (100 <=? c) && (c <? 200) then Ok (WB_SUNNY, ORANGE)
  else if (200 <=? c) && (c <? 300) then Ok (CLOUD, GREY)
  else if (300 <=? c) && (c <? 400) then Ok (WATER_DROP, BLUE)
  else if (400 <=? c) && (c <? 500) then Ok (AC_UNIT, CYAN)
  else Ok (HELP_OUTLINE, GREY).

Definition _get_jma_status_text (code : json) : string :=
  try_except_all
    (c ← py_int code;
     if (100 <=? c) && (c <? 200) then Ok "晴れ"
     else if (200 <=? c) && (c <? 300) then Ok "くもり"
     else if (300 <=? c) && (c <? 400) then Ok "雨"
     else if (400 <=? c) && (c <? 500) then Ok "雪"
     else Ok "-")
    (fun _ => "-").

(** The code between [display_temp = "--"] and [forecasts.append] in the
    inner loop of [_parse_jma_data] (lines 148 to 173). *)
Definition display_temp (current_weekly_temps : option weekly_temps)
    (current_short_temps : json) (i_time : nat) : result string :=
  match current_weekly_temps with
  | Some (Weekly mins maxs) =>
      min_v ← getitem_idx mins i_time;
      max_v ← getitem_idx maxs i_time;
      if (eq_str min_v "" || eq_str max_v "") && (i_time =? 0)%nat then
        if truthy current_short_temps then
          n ← py_len current_short_temps;
          if (2 <=? n)%nat then
            t1 ← getitem_idx current_short_temps 0;
            t2 ← getitem_idx current_short_temps 1;
            Ok (py_format t1 +:+ "-" +:+ py_format t2 +:+ "°C")
          else if (n =? 1)%nat then
            t1 ← getitem_idx current_short_temps 0;
            Ok (py_format t1 +:+ "°C")
          else Ok "--"
        else Ok "--"
      else
        if truthy min_v && truthy max_v then
          Ok (py_format min_v +:+ "-" +:+ py_format max_v +:+ "°C")
        else
          Ok (py_format (if truthy max_v then max_v else min_v) +:+ "°C")
  | Some (Daily temps) =>
      val ← getitem_idx temps i_time;
      if truthy val then Ok (py_format val +:+ "°C") else Ok "--"
  | None => Ok "--"
  end.

Definition _parse_jma_data : json -> result (list SubregionForecast) :=
  parse_jma_data _get_jma_icon_and_color _get_jma_status_text display_temp.

End Helpers.
End Mfin.


(** ** An instance of [PyRuntime] for running examples

    [int] on ASCII text (surrounding white space, a sign, decimal digits
    with single underscores between them), [fromisoformat] on the shapes
    [YYYY-MM-DD] and [YYYY-MM-DD?hh:mm:ss] with an optional [+hh:mm] or
    [-hh:mm] offset (what upstream sends), and a placeholder for the text of
    floats and containers, which no example prints.  No theorem depends on
    this instance. *)
Module SampleRuntime.

Definition is_space (a : ascii) : bool :=
  let n := nat_of_ascii a in (n =? 32)%nat || ((9 <=? n)%nat && (n <=? 13)%nat).

Definition digit_of (a : ascii) : option Z :=
  let n := nat_of_ascii a in
  if (48 <=? n)%nat && (n <=? 57)%nat then Some (Z.of_nat n - 48) else None.

Fixpoint lstrip (s : string) : string :=
  match s with
  | String a rest => if is_space a then lstrip rest else s
  | EmptyString => s
  end.

Definition strip (s : string) : string :=
  String.rev (lstrip (String.rev (lstrip s))).

(** Digits with single underscores between them; [prev] tells whether the
    character before was a digit. *)
Fixpoint digits_value (s : string) (acc : Z) (prev : bool) : option Z :=
  match s with
  | EmptyString => if prev then Some acc else None
  | String a rest =>
      match digit_of a with
      | Some d => digits_value rest (10 * acc + d) true
      | None =>
          if Ascii.eqb a "_" && prev then digits_value rest acc false else None
      end
  end.

Definition parse_int (s : string) : option Z :=
  match strip s with
  | String "-" rest => Z.opp <$> digits_value rest 0 false
  | String "+" rest => digits_value rest 0 false
  | t => digits_value t 0 false
  end.

(** A run of exactly [n] digits at the head of [s], with what follows *)
Fixpoint take_digits (n : nat) (s : string) (acc : Z) : option (Z * string) :=
  match n with
  | O => Some (acc, s)
  | S n' =>
      match s with
      | String a rest =>
          match digit_of a with
          | Some d => take_digits n' rest (10 * acc + d)
          | None => None
          end
      | EmptyString => None
      end
  end.

Definition expect (c : ascii) (s : string) : option string :=
  match s with
  | String a rest => if Ascii.eqb a c then Some rest else None
  | EmptyString => None
  end.

Definition is_leap (y : Z) : bool :=
  ((y mod 4 =? 0) && negb (y mod 100 =? 0)) || (y mod 400 =? 0).

Definition days_in_month (y m : Z) : Z :=
  if m =? 2 then (if is_leap y then 29 else 28)
  else if (m =? 4) || (m =? 6) || (m =? 9) || (m =? 11) then 30
  else 31.

Definition parse_hms (s : string) : option string :=
  '(h, s1) ← take_digits 2 s 0;
  s2 ← expect ":" s1;
  '(m, s3) ← take_digits 2 s2 0;
  s4 ← expect ":" s3;
  '(sec, s5) ← take_digits 2 s4 0;
  if (h <? 24) && (m <? 60) && (sec <? 60) then Some s5 else None.

Definition parse_offset (s : string) : bool :=
  match s with
  | EmptyString => true
  | String sign rest =>
      if Ascii.eqb sign "+" || Ascii.eqb sign "-" then
        match
          ('(h, s1) ← take_digits 2 rest 0;
           s2 ← expect ":" s1;
           '(m, s3) ← take_digits 2 s2 0;
           Some (h, m, s3))
        with
        | Some (h, m, EmptyString) => (h <? 24) && (m <? 60)
        | _ => false
        end
      else false
  end.

Definition parse_iso (s : string) : option (Z * Z) :=
  '(y, s1) ← take_digits 4 s 0;
  s2 ← expect "-" s1;
  '(m, s3) ← take_digits 2 s2 0;
  s4 ← expect "-" s3;
  '(d, s5) ← take_digits 2 s4 0;
  if (1 <=? y) && (1 <=? m) && (m <=? 12) && (1 <=? d) && (d <=? days_in_month y m) then
    match s5 with
    | EmptyString => Some (m, d)
    | String _ time =>
        match parse_hms time with
        | Some off => if parse_offset off then Some (m, d) else None
        | None => None
        end
    end
  else None.

End SampleRuntime.

Definition sample_runtime : PyRuntime :=
  {| int_of_str := SampleRuntime.parse_int;
     fromisoformat := SampleRuntime.parse_iso;
     repr_compound := fun _ => "<repr>" |}.

(** ** Sample upstream documents *)

Definition area_obj (name : string) : json := JDict [("name", JStr name); ("code", JStr "130010")].

(** A short-range report and a weekly report for two subregions; the second
    subregion has two weather codes fewer than there are dates. *)
Definition sample_short : json :=
  JDict [("timeSeries", JList [
    JDict [("timeDefines", JList [JStr "2025-01-10T17:00:00+09:00"]);
           ("areas", JList [
              JDict [("area", area_obj "東京地方"); ("weatherCodes", JList [JStr "100"])]])];
    JDict [("timeDefines", JList [JStr "2025-01-11T00:00:00+09:00"; JStr "2025-01-11T09:00:00+09:00"]);
           ("areas", JList [
              JDict [("area", area_obj "東京"); ("temps", JList [JStr "3"; JStr "11"])];
              JDict [("area", area_obj "大島"); ("temps", JList [JStr "6"])]])]])].

Definition sample_weekly : json :=
  JDict [("timeSeries", JList [
    JDict [("timeDefines", JList [JStr "2025-01-11T00:00:00+09:00"; JStr "2025-01-12T00:00:00+09:00";
                                  JStr "2025-01-13T00:00:00+09:00"; JStr "2025-01-14T00:00:00+09:00"]);
           ("areas", JList [
              JDict [("area", area_obj "東京地方");
                     ("weatherCodes", JList [JStr "101"; JStr "200"; JStr "313"; JStr "400"])];
              JDict [("area", area_obj "伊豆諸島");
                     ("weatherCodes", JList [JStr "201"; JStr "500"])]])];
    JDict [("timeDefines", JList [JStr "2025-01-11T00:00:00+09:00"; JStr "2025-01-12T00:00:00+09:00";
                                  JStr "2025-01-13T00:00:00+09:00"; JStr "2025-01-14T00:00:00+09:00"]);
           ("areas", JList [
              JDict [("area", area_obj "東京");
                     ("tempsMin", JList [JStr ""; JStr "2"; JStr ""; JStr ""]);
                     ("tempsMax", JList [JStr ""; JStr "10"; JStr "9"; JStr ""])];
              JDict [("area", area_obj "大島");
                     ("tempsMin", JList [JStr ""; JStr "5"]);
                     ("tempsMax", JList [JStr ""; JStr "12"])]])]])].

Definition sample_raw : json := JList [sample_short; sample_weekly].

(** The weekly report without its weather series *)
Definition sample_weekly_no_weather : json :=
  JDict [("timeSeries", JList [
    JDict [("timeDefines", JList [JStr "2025-01-11T00:00:00+09:00"]);
           ("areas", JList [
              JDict [("area", area_obj "東京");
                     ("tempsMin", JList [JStr ""]); ("tempsMax", JList [JStr ""])]])]])].

Definition sample_clock : Clock :=
  {| iso_now := "2025-01-10T18:30:00.000000"; sql_now := "2025-01-10 09:30:00" |}.


(** A registry of two regions, as [_load_area_data] leaves it *)
Definition sample_names : list string := ["東京都"; "大阪府"].

Definition sample_ids : gmap string string :=
  <["東京都" := "130000"]> (<["大阪府" := "270000"]> ∅).



(** ** Notions the properties are stated with *)

(** A computation that raises only what [except Exception] catches *)
Definition safe {A} (r : result A) : Prop :=
  forall e, r = Raise e -> is_Exception e = true.

(** The series the weekly loop of the normalizer visits:
    [report_weekly["timeSeries"]] *)
Definition weekly_series (raw_json : json) : result (list json) :=
  report_weekly ← weekly_report raw_json;
  ts ← getitem_key report_weekly "timeSeries";
  py_iter ts.

(** [k] is among the keys of the first area of [series] *)
Definition first_area_has_key (k : string) (series : json) : bool :=
  match (areas ← getitem_key series "areas"; first ← getitem_idx areas 0; py_keys first) with
  | Ok keys => has_key k keys
  | Raise _ => false
  end.

(** The weather series the normalizer settles on, if any *)
Definition weather_series (raw_json : json) : result (option json) :=
  l ← weekly_series raw_json;
  sel ← select_series l None None;
  Ok sel.1.

(** [row] is a most recent snapshot of [name] in [rows] *)
Definition is_latest (name : string) (rows : list HistoryRow) (row : HistoryRow) : Prop :=
  row ∈ rows /\ h_area_name row = name /\
  forall r, r ∈ rows -> h_area_name r = name ->
            text_le (h_fetched_at r) (h_fetched_at row) = true.

(** The rows of the favorites table for [name] *)
Definition favorite_rows (name : string) (d : WeatherDB) : list SavedArea :=
  filter (fun r => sa_area_name r = name) (saved_areas d).

(** What holds of the application's data in every state it reaches: the
    favorites list has no duplicate, holds the names of the favorites table,
    and no persisted snapshot has an empty payload. *)
Definition app_inv (app : Rewrite.WeatherApp) : Prop :=
  let d := Rewrite.db (Rewrite.data_manager app) in
  NoDup (Rewrite.current_saved_regions app) /\
  sa_area_name <$> saved_areas d ≡ₚ Rewrite.current_saved_regions app /\
  Forall (fun r => h_json_data r <> []) (weather_history d).

Section SpecDefs.
Context `{PyRuntime}.

(** The text the short-term list gives *)
Definition short_term_text (short : list json) : string :=
  match short with
  | [] => "--"
  | [v0] => py_format v0 +:+ "°C"
  | v0 :: v1 :: _ => py_format v0 +:+ "-" +:+ py_format v1 +:+ "°C"
  end.

End SpecDefs.

(** The two variants of the normalizer in the repository *)
Inductive variant : Type :=
| DbVer   (** [lecture-5_dbver/weather_app/src/rewrite_.py] *)
| Lecture5 (** [lecture-5/weather_app/src/mfin.py] *).

Definition normalizer `{PyRuntime} (v : variant) : json -> result (list SubregionForecast) :=
  match v with
  | DbVer => Rewrite._parse_jma_data
  | Lecture5 => Mfin._parse_jma_data
  end.

(** ** The rest of [db_manager.py]: history queries and maintenance

    These methods are not called by the application, so they leave the call
    log alone.  [fetched_at] is compared as text, which is how SQLite
    compares the ISO strings the code stores; the properties of these
    methods are stated for timestamps that SQLite keeps as text (see
    [kept_as_text] below). *)












(** ** The rest of [rewrite_.py]: what the widgets are filled with *)
Module RewriteUI.

(** [handle_search_change]: the names listed for [keyword = e.data]
    ([_show_all_regions] when it is empty). *)
Definition search_results (keyword : string) (area_name_list : list string) : list string :=
  if String.eqb keyword "" then area_name_list
  else filter (fun name => is_substring keyword name = true) area_name_list.

(** The loop of [_update_date_dropdown] that fills [unique_dates], with
    [seen] the days met so far. *)
Fixpoint unique_days (seen : list string) (fs : list ForecastEntry) : list string :=
  match fs with
  | [] => []
  | f :: rest =>
      if existsb (String.eqb (day f)) seen then unique_days seen rest
      else day f :: unique_days (day f :: seen) rest
  end.

(** [_update_date_dropdown]: the options after ["All"] and the new
    [date_filter_dd.value] ([None] is Python's [None]).  The caller passes a
    non-empty [sub_areas_data]; on an empty one [sub_areas_data[0]] raises,
    the [except] prints, and nothing changes. *)
Definition _update_date_dropdown (sub_areas_data : list SubregionForecast)
    (value : option string) : list string * option string :=
  match sub_areas_data with
  | [] => ([], value)
  | first :: _ =>
      let unique_dates := unique_days [] (forecasts first) in
      let in_dates := match value with
                      | Some v => existsb (String.eqb v) unique_dates
                      | None => false
                      end in
      let is_all := match value with Some v => String.eqb v "All" | None => false end in
      let value1 := if negb in_dates && negb is_all then Some "All" else value in
      let value2 := match value1 with
                    | Some v => if String.eqb v "" then Some "All" else value1
                    | None => Some "All"
                    end in
      (unique_dates, value2)
  end.

(** [render_weather_view]: the rows appended to [weather_list_view], as
    (subregion name, forecasts shown). *)
Definition render_weather_view (sub_areas_data : list SubregionForecast)
    (selected_date : option string) : list (json * list ForecastEntry) :=
  omap (fun sub_area =>
          let original_forecasts := forecasts sub_area in
          let filtered_forecasts :=
            match selected_date with
            | Some d =>
                if negb (String.eqb d "") && negb (String.eqb d "All")
                then filter (fun f => day f = d) original_forecasts
                else original_forecasts
            | None => original_forecasts
            end in
          if Rewrite.list_truthy filtered_forecasts then Some (area_name sub_area, filtered_forecasts)
          else None)
       sub_areas_data.

End RewriteUI.

(** ** The rest of [mfin.py]: [fetch_weather_data] *)
Module MfinApp.

(** [name_to_id] is a [dict] read in insertion order here, so it is an
    association list (names are its keys). *)
Record DataManager : Type := {
  area_name_list : list string;
  name_to_id : list (string * string);
  weather_data : gmap string (list SubregionForecast)
}.

(** [next((name for name, code in self.name_to_id.items() if code == region_id), None)] *)
Definition name_of_id (region_id : string) (name_to_id : list (string * string))
  : option string :=
  fst <$> List.find (fun p => String.eqb p.2 region_id) name_to_id.

Section Fetch.
Context `{PyRuntime}.

(** [fetch_weather_data(self, region_id)]; [net] is what [requests.get],
    [raise_for_status] and [r.json()] yield together. *)
Definition fetch_weather_data (net : result json) (region_id : string) (dm : DataManager)
  : result bool * DataManager :=
  match net with
  | Ok raw_json =>
      match Mfin._parse_jma_data raw_json with
      | Ok parsed_data =>
          match name_of_id region_id (name_to_id dm) with
          | Some region_name =>
              if negb (String.eqb region_name "") then
                (Ok true,
                 {| area_name_list := area_name_list dm; name_to_id := name_to_id dm;
                    weather_data := <[region_name := parsed_data]> (weather_data dm) |})
              else (Ok false, dm)
          | None => (Ok false, dm)
          end
      | Raise e => if is_Exception e then (Ok false, dm) else (Raise e, dm)
      end
  | Raise e => if is_Exception e then (Ok false, dm) else (Raise e, dm)
  end.

End Fetch.
End MfinApp.

(** ** Further notions for the normalizer *)

(** The series the short-term loop visits: [report_short["timeSeries"]] *)
Definition short_series (raw_json : json) : result (list json) :=
  report_short ← getitem_idx raw_json 0;
  ts ← getitem_key report_short "timeSeries";
  py_iter ts.

(** The test of the short-term loop,
    [series.get("areas") and "temps" in series["areas"][0]], where it
    evaluates without raising *)
Definition has_short_temps (series : json) : bool :=
  match
    (a ← py_get series "areas";
     if truthy a then
       areas ← getitem_key series "areas";
       first ← getitem_idx areas 0;
       contains_str "temps" first
     else Ok false)
  with
  | Ok b => b
  | Raise _ => false
  end.

(** The test that makes a series of the weekly loop the temperature series *)
Definition is_temp_series (series : json) : bool :=
  negb (first_area_has_key "weatherCodes" series) &&
  (first_area_has_key "temps" series || first_area_has_key "tempsMin" series).

(** The (icon, color, status) triples of the five categories *)
Definition category_triples : list (Icon * Color * string) :=
  [ (WB_SUNNY, ORANGE, "晴れ"); (CLOUD, GREY, "くもり"); (WATER_DROP, BLUE, "雨");
    (AC_UNIT, CYAN, "雪"); (HELP_OUTLINE, GREY, "-") ].

(** The temperature text of each variant *)
Definition display_temperature `{PyRuntime} (v : variant)
  : option weekly_temps -> json -> nat -> result string :=
  match v with
  | DbVer => Rewrite._format_temperature
  | Lecture5 => Mfin.display_temp
  end.

(** The orders the two [ORDER BY] clauses ask for *)
Definition created_asc (r1 r2 : SavedArea) : Prop :=
  text_le (sa_created_at r1) (sa_created_at r2) = true.

Definition fetched_desc (r1 r2 : HistoryRow) : Prop :=
  text_le (h_fetched_at r2) (h_fetched_at r1) = true.


(** Area [k] of the weather series can be processed for [n_dates] steps: it
    has a name and a list of weather codes, and at every step the loop
    visits the code is read by [int] and the temperature text is computed
    without raising. *)
Definition area_processable `{PyRuntime} (v : variant) (sm : list json)
    (wd : list weekly_temps) (n_dates k : nat) (area : json) : Prop :=
  exists a nm codes,
    getitem_key area "area" = Ok a /\
    getitem_key a "name" = Ok nm /\
    getitem_key area "weatherCodes" = Ok (JList codes) /\
    forall j code, (j < n_dates)%nat -> codes !! j = Some code ->
      (exists n, py_int code = Ok n) /\
      exists txt, display_temperature v (wd !! k) (default (JList []) (sm !! k)) j = Ok txt.

(** ** Timestamps SQLite keeps as text

    [fetched_at] is declared [TIMESTAMP], which gives the column NUMERIC
    affinity: a text that reads as a number is stored as a number, ordered
    by value and below every text, and a bound parameter compared with the
    column is converted the same way.  The byte order of [text_le] and
    [text_lt] is SQLite's order between texts that are kept as texts.  A
    text with a character no number can hold is kept as text; the texts of
    [datetime.isoformat()] that the code stores have ["T"] and [":"]. *)



(** The first appearance of [x] in [l] is at position [p]. *)
Definition first_at {A} (l : list A) (p : nat) (x : A) : Prop :=
  l !! p = Some x /\ x ∉ take p l.

(** * Properties *)

(** ** The error monad *)

Lemma bind_Ok {A B} (m : result A) (f : A -> result B) (b : B) :
  m ≫= f = Ok b -> exists a, m = Ok a /\ f a = Ok b.
Proof. destruct m as [a|e]; unfold mbind, result_bind; intros Hm; [eauto | discriminate]. Qed.

Lemma bind_Raise {A B} (m : result A) (f : A -> result B) (e : exn) :
  m ≫= f = Raise e -> m = Raise e \/ exists a, m = Ok a /\ f a = Raise e.
Proof. destruct m as [a|e']; unfold mbind, result_bind; intros Hm; [right; eauto | left; injection Hm as ->; reflexivity]. Qed.

Lemma mapM_Ok_length {A B} (f : A -> result B) (l : list A) (r : list B) :
  mapM f l = Ok r -> length r = length l.
Proof.
  revert r. induction l as [|x l IH]; intros r Hr; simpl in Hr.
  - injection Hr as <-. reflexivity.
  - apply bind_Ok in Hr as (y & _ & Hr).
    apply bind_Ok in Hr as (k & Hk & Hr).
    injection Hr as <-. simpl. f_equal. apply IH, Hk.
Qed.

Lemma safe_Ok {A} (a : A) : safe (Ok a).
Proof. intros e He; discriminate. Qed.

Lemma safe_Raise {A} (e : exn) : is_Exception e = true -> safe (@Raise A e).
Proof. intros He e' [= <-]. exact He. Qed.

Lemma safe_bind {A B} (m : result A) (f : A -> result B) :
  safe m -> (forall a, safe (f a)) -> safe (m ≫= f).
Proof.
  intros Hm Hf e He. apply bind_Raise in He as [He | (a & _ & He)].
  - exact (Hm e He).
  - exact (Hf a e He).
Qed.

Lemma safe_mapM {A B} (f : A -> result B) (l : list A) :
  (forall a, safe (f a)) -> safe (mapM f l).
Proof.
  intros Hf. induction l as [|x l IH]; simpl.
  - apply safe_Ok.
  - apply safe_bind; [apply Hf | intros y].
    apply safe_bind; [exact IH | intros k; apply safe_Ok].
Qed.

Lemma try_except_safe {A} (body : result A) (handler : exn -> result A) :
  safe body -> (forall e, safe (handler e)) ->
  forall e, try_except body handler = Raise e -> is_Exception e = true.
Proof.
  intros Hb Hh e. unfold try_except. destruct body as [a|e0]; [discriminate|].
  rewrite (Hb e0 eq_refl). apply Hh.
Qed.

Lemma try_except_returns {A} (body : result A) (a0 : A) :
  safe body ->
  try_except body (fun _ => Ok a0) = match body with Ok a => Ok a | Raise _ => Ok a0 end.
Proof.
  intros Hb. unfold try_except. destruct body as [a|e]; [reflexivity|].
  now rewrite (Hb e eq_refl).
Qed.

Create HintDb safe discriminated.
#[local] Hint Resolve safe_Ok safe_mapM : safe.
#[local] Hint Extern 1 (safe (Raise _)) => (apply safe_Raise; reflexivity) : safe.

(** Breaks a goal [safe c] along the binds and the tests of [c]. *)
Ltac safe_step :=
  match goal with
  | |- safe (Ok _) => apply safe_Ok
  | |- safe (Raise _) => apply safe_Raise; reflexivity
  | |- safe (mret _) => apply safe_Ok
  | |- safe (_ ≫= _) => apply safe_bind; [| intros ?]
  | |- safe (if ?b then _ else _) => destruct b
  | |- safe (match ?x with _ => _ end) => destruct x
  | |- safe (let (_, _) := ?x in _) => destruct x
  end.

Ltac safe_auto := repeat (first [safe_step | solve [eauto with safe]]).

Lemma getitem_key_safe v k : safe (getitem_key v k).
Proof. unfold getitem_key. safe_auto. Qed.

Lemma getitem_idx_safe v i : safe (getitem_idx v i).
Proof. unfold getitem_idx. safe_auto. Qed.

Lemma py_get_safe v k : safe (py_get v k).
Proof. unfold py_get. safe_auto. Qed.

Lemma py_keys_safe v : safe (py_keys v).
Proof. unfold py_keys. safe_auto. Qed.

Lemma contains_str_safe k v : safe (contains_str k v).
Proof. unfold contains_str. safe_auto. Qed.

Lemma py_len_safe v : safe (py_len v).
Proof. unfold py_len. safe_auto. Qed.

Lemma py_iter_safe v : safe (py_iter v).
Proof. unfold py_iter. safe_auto. Qed.

Lemma float_to_int_safe f : safe (float_to_int f).
Proof. unfold float_to_int. safe_auto. Qed.

#[local] Hint Resolve getitem_key_safe getitem_idx_safe py_get_safe py_keys_safe
  contains_str_safe py_len_safe py_iter_safe float_to_int_safe : safe.

(** ** The normalizer raises nothing an [except Exception] lets through *)
Section NormalizerSafe.
Context `{PyRuntime}.

Lemma py_int_safe v : safe (py_int v).
Proof. unfold py_int. safe_auto. Qed.

Lemma iso_label_safe t : safe (iso_label t).
Proof. unfold iso_label. safe_auto. Qed.

Hint Resolve py_int_safe iso_label_safe : safe.

Variable icon_and_color : json -> result (Icon * Color).
Variable status_text : json -> string.
Variable display_temp : option weekly_temps -> json -> nat -> result string.
Hypothesis icon_and_color_safe : forall code, safe (icon_and_color code).
Hypothesis display_temp_safe : forall w s i, safe (display_temp w s i).

Lemma short_term_temps_safe l : safe (short_term_temps l).
Proof. induction l as [|series rest IH]; simpl; safe_auto. Qed.

Lemma select_series_safe l w t : safe (select_series l w t).
Proof. revert w t. induction l as [|series rest IH]; intros w t; simpl; safe_auto. Qed.

Lemma classify_area_safe area : safe (classify_area area).
Proof. unfold classify_area. safe_auto. Qed.

Hint Resolve short_term_temps_safe select_series_safe classify_area_safe : safe.

Lemma build_weekly_temp_data_safe t : safe (build_weekly_temp_data t).
Proof. unfold build_weekly_temp_data. safe_auto. Qed.

Lemma forecast_steps_safe codes cw cs dates steps :
  safe (forecast_steps icon_and_color status_text display_temp codes cw cs dates steps).
Proof. induction steps as [|i rest IH]; simpl; safe_auto. Qed.

Hint Resolve build_weekly_temp_data_safe forecast_steps_safe : safe.

Lemma build_areas_safe sm wd td dates i areas :
  safe (build_areas icon_and_color status_text display_temp sm wd td dates i areas).
Proof. revert i. induction areas as [|a rest IH]; intros i; simpl; safe_auto. Qed.

Lemma weekly_report_safe raw : safe (weekly_report raw).
Proof. unfold weekly_report. safe_auto. Qed.

Hint Resolve build_areas_safe weekly_report_safe : safe.

Lemma parse_body_safe raw :
  safe (parse_body icon_and_color status_text display_temp raw).
Proof. unfold parse_body. safe_auto. Qed.

Lemma parse_jma_data_total raw :
  parse_jma_data icon_and_color status_text display_temp raw =
  match parse_body icon_and_color status_text display_temp raw with
  | Ok r => Ok r
  | Raise _ => Ok []
  end.
Proof. unfold parse_jma_data. apply try_except_returns, parse_body_safe. Qed.

End NormalizerSafe.

Section VariantsSafe.
Context `{PyRuntime}.

Lemma rewrite_icon_safe code : safe (Rewrite._get_weather_icon_and_color code).
Proof.
  unfold Rewrite._get_weather_icon_and_color.
  apply safe_bind; [apply py_int_safe | intros c]. safe_auto.
Qed.

Lemma rewrite_temperature_safe w s i : safe (Rewrite._format_temperature w s i).
Proof. unfold Rewrite._format_temperature. safe_auto. Qed.

Lemma mfin_icon_safe code : safe (Mfin._get_jma_icon_and_color code).
Proof.
  unfold Mfin._get_jma_icon_and_color.
  apply safe_bind; [apply py_int_safe | intros c]. safe_auto.
Qed.

Lemma mfin_temperature_safe w s i : safe (Mfin.display_temp w s i).
Proof. unfold Mfin.display_temp. safe_auto. Qed.

Lemma rewrite_parse_total raw :
  Rewrite._parse_jma_data raw =
  match parse_body Rewrite._get_weather_icon_and_color Rewrite._get_weather_status_text
          Rewrite._format_temperature raw with
  | Ok r => Ok r
  | Raise _ => Ok []
  end.
Proof.
  unfold Rewrite._parse_jma_data.
  apply parse_jma_data_total; [exact rewrite_icon_safe | exact rewrite_temperature_safe].
Qed.

Lemma mfin_parse_total raw :
  Mfin._parse_jma_data raw =
  match parse_body Mfin._get_jma_icon_and_color Mfin._get_jma_status_text
          Mfin.display_temp raw with
  | Ok r => Ok r
  | Raise _ => Ok []
  end.
Proof.
  unfold Mfin._parse_jma_data.
  apply parse_jma_data_total; [exact mfin_icon_safe | exact mfin_temperature_safe].
Qed.

End VariantsSafe.

(** ** Weather codes *)

(** Settles every integer test of the goal whose outcome [lia] can tell. *)
Ltac decide_tests :=
  repeat match goal with
         | |- context [(?a <=? ?b)] =>
             first [ rewrite (proj2 (Z.leb_le a b)) by lia
                   | rewrite (proj2 (Z.leb_gt a b)) by lia ]
         | |- context [(?a <? ?b)] =>
             first [ rewrite (proj2 (Z.ltb_lt a b)) by lia
                   | rewrite (proj2 (Z.ltb_ge a b)) by lia ]
         end; simpl.

Section WeatherCodes.
Context `{PyRuntime}.

Lemma status_text_of_int (code : json) (n : Z) :
  py_int code = Ok n ->
  Rewrite._get_weather_status_text code =
    (if (100 <=? n) && (n <? 200) then "晴れ"
     else if (200 <=? n) && (n <? 300) then "くもり"
     else if (300 <=? n) && (n <? 400) then "雨"
     else if (400 <=? n) && (n <? 500) then "雪"
     else "-").
Proof.
  intros Hn. unfold Rewrite._get_weather_status_text. rewrite Hn. simpl.
  repeat (match goal with |- context [if ?b then _ else _] => destruct b end; simpl; try reflexivity).
Qed.

Lemma status_text_variants_agree (code : json) :
  Mfin._get_jma_status_text code = Rewrite._get_weather_status_text code.
Proof. reflexivity. Qed.

(** C1.  A weather code string [c] that [int] parses to [n] gets the status
    text of the half-open range [n] lies in: [100 <= n < 200] "晴れ",
    [200 <= n < 300] "くもり", [300 <= n < 400] "雨", [400 <= n < 500] "雪",
    any other value "-"; both variants of the normalizer agree. *)
Theorem status_text_by_range (c : string) (n : Z) :
  int_of_str c = Some n ->
  Mfin._get_jma_status_text (JStr c) = Rewrite._get_weather_status_text (JStr c) /\
  (100 <= n < 200 -> Rewrite._get_weather_status_text (JStr c) = "晴れ") /\
  (200 <= n < 300 -> Rewrite._get_weather_status_text (JStr c) = "くもり") /\
  (300 <= n < 400 -> Rewrite._get_weather_status_text (JStr c) = "雨") /\
  (400 <= n < 500 -> Rewrite._get_weather_status_text (JStr c) = "雪") /\
  (n < 100 \/ 500 <= n -> Rewrite._get_weather_status_text (JStr c) = "-").
Proof.
  intros Hc. split; [apply status_text_variants_agree|].
  assert (Hn : py_int (JStr c) = Ok n) by (simpl; now rewrite Hc).
  rewrite (status_text_of_int _ _ Hn).
  repeat split; intros Hr; try destruct Hr as [Hr|Hr]; decide_tests; reflexivity.
Qed.

End WeatherCodes.

(** The boundaries, run on the sample runtime *)
Example status_text_boundaries :
  let text c := @Rewrite._get_weather_status_text sample_runtime (JStr c) in
  text "99" = "-" /\ text "100" = "晴れ" /\ text "199" = "晴れ" /\
  text "200" = "くもり" /\ text "299" = "くもり" /\
  text "300" = "雨" /\ text "399" = "雨" /\
  text "400" = "雪" /\ text "499" = "雪" /\
  text "500" = "-" /\ text "abc" = "-".
Proof. vm_compute. repeat split. Qed.

Lemma status_text_by_range_witness :
  @int_of_str sample_runtime "100" = Some 100 /\
  @Rewrite._get_weather_status_text sample_runtime (JStr "100") = "晴れ".
Proof.
  split; [reflexivity|].
  apply (@status_text_by_range sample_runtime "100" 100 eq_refl). lia.
Defined.

(** ** Display temperature *)
Section Temperature.
Context `{PyRuntime}.

Lemma eq_str_empty v : eq_str v "" = true <-> v = JStr "".
Proof.
  destruct v; simpl; try (split; [discriminate | intros [=]]).
  rewrite String.eqb_eq. split; [intros ->; reflexivity | intros [= ->]; reflexivity].
Qed.

Lemma truthy_str s : truthy (JStr s) = true <-> s <> "".
Proof.
  simpl. destruct (String.eqb_spec s ""); simpl; split; intros; congruence.
Qed.

(** The weekly branch of [_format_temperature] in [rewrite_.py], away from
    the step-0 fallback, on string values: both present, one present,
    none.  (This is the property of claim C2 on the rewritten variant.) *)
Lemma rewrite_weekly_range (mins maxs : json) (i : nat) (mn mx : string) (short : json) :
  getitem_idx mins i = Ok (JStr mn) ->
  getitem_idx maxs i = Ok (JStr mx) ->
  (0 < i)%nat \/ (mn <> "" /\ mx <> "") ->
  Rewrite._format_temperature (Some (Weekly mins maxs)) short i =
    Ok (if bool_decide (mn <> "" /\ mx <> "") then mn +:+ "-" +:+ mx +:+ "°C"
        else if bool_decide (mx <> "") then mx +:+ "°C"
        else if bool_decide (mn <> "") then mn +:+ "°C"
        else "--").
Proof.
  intros Hmn Hmx Hstep. unfold Rewrite._format_temperature.
  rewrite Hmn, Hmx. simpl.
  assert (Hi : (0 < i)%nat -> (i =? 0)%nat = false) by (intros; apply Nat.eqb_neq; lia).
  destruct (String.eqb_spec mn ""), (String.eqb_spec mx ""); subst; simpl;
    repeat case_bool_decide;
    try (destruct Hstep as [Hp | [? ?]]; [rewrite (Hi Hp) | congruence]);
    simpl; try reflexivity; exfalso; tauto.
Qed.

(** The same branch inline in [mfin.py] has no test before its last
    [else]: with both values empty it prints the unit alone. *)
Lemma mfin_weekly_range_both_empty (mins maxs : json) (i : nat) (short : json) :
  getitem_idx mins i = Ok (JStr "") ->
  getitem_idx maxs i = Ok (JStr "") ->
  (0 < i)%nat ->
  Mfin.display_temp (Some (Weekly mins maxs)) short i = Ok "°C".
Proof.
  intros Hmn Hmx Hi. unfold Mfin.display_temp. rewrite Hmn, Hmx.
  destruct i; [lia|]. reflexivity.
Qed.

(** C3.  At step 0 of a weekly-range area whose min or max is the empty
    string, the text comes from the short-term list alone: two values or
    more give "v0-v1°C", one gives "v0°C", none gives "--"; in both
    variants. *)
Theorem step0_short_term_fallback (mins maxs min_v max_v : json) (short : list json) :
  getitem_idx mins 0 = Ok min_v ->
  getitem_idx maxs 0 = Ok max_v ->
  min_v = JStr "" \/ max_v = JStr "" ->
  Rewrite._format_temperature (Some (Weekly mins maxs)) (JList short) 0
    = Ok (short_term_text short) /\
  Mfin.display_temp (Some (Weekly mins maxs)) (JList short) 0
    = Ok (short_term_text short).
Proof.
  intros Hmn Hmx Hempty.
  assert (Hc : eq_str min_v "" || eq_str max_v "" = true).
  { apply orb_true_iff. destruct Hempty as [->| ->]; [left|right]; reflexivity. }
  unfold Rewrite._format_temperature, Mfin.display_temp.
  rewrite Hmn, Hmx. simpl. rewrite Hc. simpl.
  destruct short as [|v0 [|v1 rest]]; simpl; split; reflexivity.
Qed.

End Temperature.

(** C2.  For a weekly-range area at a step after the first, with min and max
    both the empty string, the claim gives "--".  [_format_temperature] of
    [rewrite_.py] does ([rewrite_weekly_range]); the inline code of
    [mfin.py] gives "°C": here at step 3 of the first subregion of the
    sample document, in the helper and in the normalizer's output. *)
Theorem mfin_both_empty_prints_unit :
  let mins := JList [JStr ""; JStr "2"; JStr ""; JStr ""] in
  let maxs := JList [JStr ""; JStr "10"; JStr "9"; JStr ""] in
  let short := JList [JStr "3"; JStr "11"] in
  let temp_at (r : result (list SubregionForecast)) :=
    match r with
    | Ok (sf :: _) => temp <$> forecasts sf !! 3%nat
    | _ => None
    end in
  @Mfin.display_temp sample_runtime (Some (Weekly mins maxs)) short 3 = Ok "°C" /\
  @Rewrite._format_temperature sample_runtime (Some (Weekly mins maxs)) short 3 = Ok "--" /\
  temp_at (@Mfin._parse_jma_data sample_runtime sample_raw) = Some "°C" /\
  temp_at (@Rewrite._parse_jma_data sample_runtime sample_raw) = Some "--".
Proof. vm_compute. repeat split. Qed.

(** ** Shape of the normalizer's output *)
Section NormalizerShape.
Context `{PyRuntime}.
Variable icon_and_color : json -> result (Icon * Color).
Variable status_text : json -> string.
Variable display_temp : option weekly_temps -> json -> nat -> result string.
Hypothesis icon_and_color_safe : forall code, safe (icon_and_color code).
Hypothesis display_temp_safe : forall w s i, safe (display_temp w s i).

Local Abbreviation steps := (forecast_steps icon_and_color status_text display_temp).
Local Abbreviation areas_loop := (build_areas icon_and_color status_text display_temp).
Local Abbreviation body := (parse_body icon_and_color status_text display_temp).
Local Abbreviation parse := (parse_jma_data icon_and_color status_text display_temp).

(** The inner loop yields one entry per step until the dates or the
    weather codes run out. *)
Lemma forecast_steps_length codes cw cs dates (a n : nat) fs :
  steps codes cw cs dates (seq a n) = Ok fs ->
  (n = 0%nat /\ fs = []) \/
  exists nc, py_len codes = Ok nc /\ length fs = ((nc - a) `min` n)%nat.
Proof.
  revert a fs. induction n as [|n IH]; intros a fs Hfs; simpl in Hfs.
  - left. injection Hfs as <-. split; reflexivity.
  - right. apply bind_Ok in Hfs as (nc & Hnc & Hfs). exists nc. split; [exact Hnc|].
    destruct (Nat.leb_spec nc a) as [Hle|Hlt].
    + injection Hfs as <-. simpl. lia.
    + apply bind_Ok in Hfs as (code & _ & Hfs).
      apply bind_Ok in Hfs as (ic & _ & Hfs).
      apply bind_Ok in Hfs as (t & _ & Hfs).
      apply bind_Ok in Hfs as (d & _ & Hfs).
      apply bind_Ok in Hfs as (more & Hmore & Hfs).
      injection Hfs as <-. simpl.
      apply IH in Hmore as [[-> ->] | (nc' & Hnc' & Hlen)].
      * simpl. lia.
      * rewrite Hnc in Hnc'. injection Hnc' as <-. rewrite Hlen. lia.
Qed.

(** The outer loop yields one record per area, in order. *)
Lemma build_areas_lookup sm wd td dates i0 areas res k sf :
  areas_loop sm wd td dates i0 areas = Ok res ->
  res !! k = Some sf ->
  exists area a codes n_td,
    areas !! k = Some area /\
    getitem_key area "area" = Ok a /\
    getitem_key a "name" = Ok (area_name sf) /\
    getitem_key area "weatherCodes" = Ok codes /\
    py_len td = Ok n_td /\
    steps codes (wd !! (i0 + k)%nat) (default (JList []) (sm !! (i0 + k)%nat)) dates (seq 0 n_td)
      = Ok (forecasts sf).
Proof.
  revert i0 res k. induction areas as [|area rest IH]; intros i0 res k Hres Hk; simpl in Hres.
  - injection Hres as <-. discriminate.
  - apply bind_Ok in Hres as (a & Ha & Hres).
    apply bind_Ok in Hres as (nm & Hnm & Hres).
    apply bind_Ok in Hres as (codes & Hcodes & Hres).
    apply bind_Ok in Hres as (n_td & Htd & Hres).
    apply bind_Ok in Hres as (fs & Hfs & Hres).
    apply bind_Ok in Hres as (more & Hmore & Hres).
    injection Hres as <-.
    destruct k as [|k]; simpl in Hk.
    + injection Hk as <-. simpl. exists area, a, codes, n_td.
      rewrite Nat.add_0_r. repeat split; assumption.
    + destruct (IH _ _ _ Hmore Hk) as (area' & a' & codes' & n' & H1 & H2 & H3 & H4 & H5 & H6).
      exists area', a', codes', n'. simpl.
      replace (i0 + S k)%nat with (S i0 + k)%nat by lia.
      repeat split; assumption.
Qed.

Lemma build_areas_length sm wd td dates i0 areas res :
  areas_loop sm wd td dates i0 areas = Ok res -> length res = length areas.
Proof.
  revert i0 res. induction areas as [|area rest IH]; intros i0 res Hres; simpl in Hres.
  - injection Hres as <-. reflexivity.
  - repeat (apply bind_Ok in Hres as (? & ? & Hres)).
    injection Hres as <-. simpl. f_equal. eauto.
Qed.

(** A series without ["weatherCodes"] in its first area never becomes
    [ts_weather]. *)
Lemma select_series_no_weather l w t sel :
  Forall (fun s => first_area_has_key "weatherCodes" s = false) l ->
  select_series l w t = Ok sel -> sel.1 = w.
Proof.
  intros Hl. revert w t sel. induction Hl as [|series rest Hs _ IH]; intros w t sel Hsel;
    simpl in Hsel.
  - injection Hsel as <-. reflexivity.
  - apply bind_Ok in Hsel as (a & _ & Hsel).
    destruct (truthy a); simpl in Hsel; [|eauto].
    apply bind_Ok in Hsel as (areas & Hareas & Hsel).
    apply bind_Ok in Hsel as (first & Hfirst & Hsel).
    apply bind_Ok in Hsel as (keys & Hkeys & Hsel).
    unfold first_area_has_key in Hs. rewrite Hareas in Hs. simpl in Hs.
    rewrite Hfirst in Hs. simpl in Hs. rewrite Hkeys in Hs. rewrite Hs in Hsel.
    destruct (has_key "temps" keys || has_key "tempsMin" keys); eauto.
Qed.

(** What a successful run of the body went through *)
Lemma parse_body_Ok raw res :
  body raw = Ok res ->
  exists week_series sel,
    weekly_series raw = Ok week_series /\
    select_series week_series None None = Ok sel /\
    (opt_truthy sel.1 = false /\ res = [] \/
     exists ts_weather sm wd td tds dates areas items,
       sel.1 = Some ts_weather /\
       getitem_key ts_weather "timeDefines" = Ok td /\
       py_iter td = Ok tds /\
       mapM iso_label tds = Ok dates /\
       getitem_key ts_weather "areas" = Ok areas /\
       py_iter areas = Ok items /\
       areas_loop sm wd td dates 0 items = Ok res).
Proof.
  intros Hres. unfold parse_body in Hres.
  apply bind_Ok in Hres as (report_short & _ & Hres).
  apply bind_Ok in Hres as (report_weekly & Hweekly & Hres).
  apply bind_Ok in Hres as (ts_short & _ & Hres).
  apply bind_Ok in Hres as (short_series & _ & Hres).
  apply bind_Ok in Hres as (sm & _ & Hres).
  apply bind_Ok in Hres as (ts_week & Hts & Hres).
  apply bind_Ok in Hres as (week_series & Hws & Hres).
  apply bind_Ok in Hres as (sel & Hsel & Hres).
  exists week_series, sel. split; [|split; [exact Hsel|]].
  { unfold weekly_series. rewrite Hweekly. simpl. rewrite Hts. exact Hws. }
  destruct (opt_truthy sel.1) eqn:Htr; simpl in Hres.
  - right.
    apply bind_Ok in Hres as (wd & _ & Hres).
    apply bind_Ok in Hres as (ts_weather & Hw & Hres).
    apply bind_Ok in Hres as (td & Htd & Hres).
    apply bind_Ok in Hres as (tds & Htds & Hres).
    apply bind_Ok in Hres as (dates & Hdates & Hres).
    apply bind_Ok in Hres as (areas & Hareas & Hres).
    apply bind_Ok in Hres as (items & Hitems & Hres).
    destruct sel.1 as [w|] eqn:Hsel1; [|discriminate].
    injection Hw as ->.
    exists ts_weather, sm, wd, td, tds, dates, areas, items. repeat split; assumption.
  - left. injection Hres as <-. split; reflexivity.
Qed.

Lemma parse_Ok_nonempty raw res :
  parse raw = Ok res -> res <> [] -> body raw = Ok res.
Proof.
  rewrite parse_jma_data_total by assumption.
  destruct (body raw) as [r|e]; intros [= <-] Hne; [reflexivity | contradiction].
Qed.

Lemma forecast_count_generic raw res i sf :
  parse raw = Ok res ->
  res !! i = Some sf ->
  exists ts_weather time_defines n_dates areas area_items area weather_codes,
    weather_series raw = Ok (Some ts_weather) /\
    getitem_key ts_weather "timeDefines" = Ok time_defines /\
    py_len time_defines = Ok n_dates /\
    getitem_key ts_weather "areas" = Ok areas /\
    py_iter areas = Ok area_items /\
    length res = length area_items /\
    area_items !! i = Some area /\
    getitem_key area "weatherCodes" = Ok weather_codes /\
    (length (forecasts sf) <= n_dates)%nat /\
    forall n_codes, py_len weather_codes = Ok n_codes ->
                    length (forecasts sf) = (n_codes `min` n_dates)%nat.
Proof.
  intros Hparse Hi.
  assert (Hne : res <> []) by (intros ->; discriminate).
  apply parse_Ok_nonempty in Hparse; [|exact Hne].
  apply parse_body_Ok in Hparse
    as (ws & sel & Hws & Hsel & [[_ ->] | (w & sm & wd & td & tds & dates & areas & items &
                                           Hw & Htd & Htds & Hdates & Hareas & Hitems & Hloop)]);
    [contradiction|].
  destruct (build_areas_lookup _ _ _ _ _ _ _ _ _ Hloop Hi)
    as (area & a & codes & n_td & Harea & _ & _ & Hcodes & Hlen & Hsteps).
  exists w, td, n_td, areas, items, area, codes.
  repeat split; try assumption.
  - unfold weather_series. rewrite Hws. simpl. rewrite Hsel. simpl. now rewrite Hw.
  - eapply build_areas_length, Hloop.
  - apply forecast_steps_length in Hsteps as [[-> ->] | (nc & _ & ->)]; simpl; lia.
  - intros n_codes Hn.
    apply forecast_steps_length in Hsteps as [[-> ->] | (nc & Hnc & ->)]; simpl; [lia|].
    rewrite Hn in Hnc. injection Hnc as <-. lia.
Qed.

Lemma no_weather_series_generic raw :
  (forall l, weekly_series raw = Ok l ->
             Forall (fun s => first_area_has_key "weatherCodes" s = false) l) ->
  parse raw = Ok [].
Proof.
  intros Hno. rewrite parse_jma_data_total by assumption.
  destruct (body raw) as [res|e] eqn:Hbody; [|reflexivity].
  apply parse_body_Ok in Hbody
    as (ws & sel & Hws & Hsel & [[_ ->] | (w & sm & wd & td & tds & dates & areas & items &
                                           Hw & _)]); [reflexivity|].
  apply (select_series_no_weather _ _ _ _ (Hno _ Hws)) in Hsel. congruence.
Qed.

(** The inner loop goes through when no visited step raises, and stops at
    the end of the dates or of the weather codes. *)
Lemma forecast_steps_complete (codes : list json) cw cs dates (a n : nat) :
  (a + n <= length dates)%nat ->
  (forall j code, (a <= j < a + n)%nat -> codes !! j = Some code ->
     (exists ic, icon_and_color code = Ok ic) /\
     exists txt, display_temp cw cs j = Ok txt) ->
  exists fs, steps (JList codes) cw cs dates (seq a n) = Ok fs /\
             length fs = ((length codes - a) `min` n)%nat.
Proof.
  revert a. induction n as [|n IH]; intros a Hdates Hok; simpl.
  - exists []. split; [reflexivity | simpl; lia].
  - destruct (Nat.leb_spec (length codes) a) as [Hle|Hlt].
    + exists []. split; [reflexivity | simpl; lia].
    + destruct (lookup_lt_is_Some_2 codes a Hlt) as (code & Hcode).
      destruct (Hok a code ltac:(lia) Hcode) as ((ic & Hic) & (txt & Htxt)).
      destruct (lookup_lt_is_Some_2 dates a ltac:(lia)) as (d & Hd).
      destruct (IH (S a) ltac:(lia)) as (more & Hmore & Hlen).
      { intros j c Hj Hc. apply (Hok j c); [lia | exact Hc]. }
      rewrite Hcode. simpl. rewrite Hic. simpl. rewrite Htxt. simpl.
      rewrite Hd. simpl. rewrite Hmore. simpl.
      eexists. split; [reflexivity|]. simpl. rewrite Hlen. lia.
Qed.

(** The outer loop goes through when every area can be processed. *)
Lemma build_areas_complete sm wd (tds : list json) dates i0 (items : list json) :
  length dates = length tds ->
  (forall k area, items !! k = Some area ->
     exists a nm codes,
       getitem_key area "area" = Ok a /\
       getitem_key a "name" = Ok nm /\
       getitem_key area "weatherCodes" = Ok (JList codes) /\
       forall j code, (j < length tds)%nat -> codes !! j = Some code ->
         (exists ic, icon_and_color code = Ok ic) /\
         exists txt, display_temp (wd !! (i0 + k)%nat)
                       (default (JList []) (sm !! (i0 + k)%nat)) j = Ok txt) ->
  exists res,
    areas_loop sm wd (JList tds) dates i0 items = Ok res /\
    length res = length items /\
    forall k area codes,
      items !! k = Some area ->
      getitem_key area "weatherCodes" = Ok (JList codes) ->
      exists sf, res !! k = Some sf /\
                 length (forecasts sf) = (length codes `min` length tds)%nat.
Proof.
  intros Hdates. revert i0. induction items as [|area rest IH]; intros i0 Hok; simpl.
  - exists []. split; [reflexivity|]. split; [reflexivity|]. intros k area codes Hk. discriminate.
  - destruct (Hok 0%nat area eq_refl) as (a & nm & codes & Ha & Hnm & Hcodes & Hsteps).
    rewrite Nat.add_0_r in Hsteps.
    destruct (forecast_steps_complete codes (wd !! i0) (default (JList []) (sm !! i0))
                dates 0 (length tds)) as (fs & Hfs & Hlen).
    { simpl. lia. }
    { intros j code Hj Hc. apply (Hsteps j code); [lia | exact Hc]. }
    destruct (IH (S i0)) as (more & Hmore & Hlenmore & Hrest).
    { intros k area' Hk. specialize (Hok (S k) area' Hk).
      replace (i0 + S k)%nat with (S i0 + k)%nat in Hok by lia. exact Hok. }
    rewrite Ha. simpl. rewrite Hnm. simpl. rewrite Hcodes. simpl.
    rewrite Hfs. simpl. rewrite Hmore. simpl.
    eexists. split; [reflexivity|]. split; [simpl; now rewrite Hlenmore|].
    intros k area' codes' Hk Hcodes'. destruct k as [|k]; simpl in Hk.
    + injection Hk as <-. rewrite Hcodes in Hcodes'. injection Hcodes' as <-.
      eexists. split; [reflexivity|]. simpl. rewrite Hlen. lia.
    + apply (Hrest k area' codes' Hk Hcodes').
Qed.

(** The body goes through on a document whose pieces are in place. *)
Lemma parse_body_complete raw ss sm ws w t wd (tds : list json) dates (items : list json) :
  short_series raw = Ok ss ->
  short_term_temps ss = Ok sm ->
  weekly_series raw = Ok ws ->
  select_series ws None None = Ok (Some w, t) ->
  build_weekly_temp_data t = Ok wd ->
  getitem_key w "timeDefines" = Ok (JList tds) ->
  mapM iso_label tds = Ok dates ->
  getitem_key w "areas" = Ok (JList items) ->
  body raw = areas_loop sm wd (JList tds) dates 0 items.
Proof.
  intros Hss Hsm Hws Hsel Hwd Htd Hdates Hareas.
  unfold short_series in Hss.
  apply bind_Ok in Hss as (report_short & Hshort & Hss).
  apply bind_Ok in Hss as (ts_short & Htss & Hss).
  unfold weekly_series in Hws.
  apply bind_Ok in Hws as (report_weekly & Hweekly & Hws).
  apply bind_Ok in Hws as (ts_week & Htsw & Hws).
  assert (Htruthy : truthy w = true).
  { destruct w as [| | | | | |d]; try discriminate. destruct d; [discriminate | reflexivity]. }
  unfold parse_body. rewrite Hshort. simpl. rewrite Hweekly. simpl.
  rewrite Htss. simpl. rewrite Hss. simpl. rewrite Hsm. simpl.
  rewrite Htsw. simpl. rewrite Hws. simpl. rewrite Hsel. simpl.
  rewrite Htruthy. simpl. rewrite Hwd. simpl. rewrite Htd. simpl.
  rewrite Hdates. simpl. rewrite Hareas. reflexivity.
Qed.

Lemma forecast_count_complete raw ss sm ws w t wd (tds : list json) dates (items : list json) :
  short_series raw = Ok ss ->
  short_term_temps ss = Ok sm ->
  weekly_series raw = Ok ws ->
  select_series ws None None = Ok (Some w, t) ->
  build_weekly_temp_data t = Ok wd ->
  getitem_key w "timeDefines" = Ok (JList tds) ->
  mapM iso_label tds = Ok dates ->
  getitem_key w "areas" = Ok (JList items) ->
  (forall k area, items !! k = Some area ->
     exists a nm codes,
       getitem_key area "area" = Ok a /\
       getitem_key a "name" = Ok nm /\
       getitem_key area "weatherCodes" = Ok (JList codes) /\
       forall j code, (j < length tds)%nat -> codes !! j = Some code ->
         (exists ic, icon_and_color code = Ok ic) /\
         exists txt, display_temp (wd !! k) (default (JList []) (sm !! k)) j = Ok txt) ->
  exists res,
    parse raw = Ok res /\
    length res = length items /\
    forall k area codes,
      items !! k = Some area ->
      getitem_key area "weatherCodes" = Ok (JList codes) ->
      exists sf, res !! k = Some sf /\
                 length (forecasts sf) = (length codes `min` length tds)%nat.
Proof.
  intros Hss Hsm Hws Hsel Hwd Htd Hdates Hareas Hok.
  destruct (build_areas_complete sm wd tds dates 0 items) as (res & Hres & Hlen & Hall).
  { eapply mapM_Ok_length, Hdates. }
  { exact Hok. }
  exists res. split; [|split; assumption].
  rewrite parse_jma_data_total by assumption.
  rewrite (parse_body_complete _ _ _ _ _ _ _ _ _ _ Hss Hsm Hws Hsel Hwd Htd Hdates Hareas).
  now rewrite Hres.
Qed.

End NormalizerShape.

Section NormalizerClaims.
Context `{PyRuntime}.

Lemma rewrite_icon_of_int (code : json) (n : Z) :
  py_int code = Ok n -> exists ic, Rewrite._get_weather_icon_and_color code = Ok ic.
Proof.
  intros Hn. unfold Rewrite._get_weather_icon_and_color. rewrite Hn. simpl.
  repeat (match goal with |- context [if ?b then _ else _] => destruct b end; eauto).
Qed.

Lemma mfin_icon_of_int (code : json) (n : Z) :
  py_int code = Ok n -> exists ic, Mfin._get_jma_icon_and_color code = Ok ic.
Proof.
  intros Hn. unfold Mfin._get_jma_icon_and_color. rewrite Hn. simpl.
  repeat (match goal with |- context [if ?b then _ else _] => destruct b end; eauto).
Qed.

(** C4.  Every [SubregionForecast] the normalizer returns (either
    variant) is the record of the area at the same position of the weather
    series of the weekly report, and holds exactly
    [min(len(weatherCodes), len(timeDefines))] entries, hence never more
    than either length.  And the records do come out: on a document whose
    pieces are in place and whose areas can be processed, the normalizer
    returns one record per area, each with exactly
    [min(len(weatherCodes), len(timeDefines))] entries, so a list of
    weather codes shorter than [timeDefines] cuts the record to its length
    and does not lose the document. *)
Theorem forecast_count (v : variant) (raw : json) :
  (forall (res : list SubregionForecast) (i : nat) (sf : SubregionForecast),
     normalizer v raw = Ok res ->
     res !! i = Some sf ->
     exists ts_weather time_defines n_dates areas area_items area weather_codes,
       weather_series raw = Ok (Some ts_weather) /\
       getitem_key ts_weather "timeDefines" = Ok time_defines /\
       py_len time_defines = Ok n_dates /\
       getitem_key ts_weather "areas" = Ok areas /\
       py_iter areas = Ok area_items /\
       length res = length area_items /\
       area_items !! i = Some area /\
       getitem_key area "weatherCodes" = Ok weather_codes /\
       (length (forecasts sf) <= n_dates)%nat /\
       forall n_codes, py_len weather_codes = Ok n_codes ->
                       length (forecasts sf) = (n_codes `min` n_dates)%nat) /\
  (forall ss sm ws ts_weather ts_temp wd (time_defines : list json) dates
          (area_items : list json),
     short_series raw = Ok ss ->
     short_term_temps ss = Ok sm ->
     weekly_series raw = Ok ws ->
     select_series ws None None = Ok (Some ts_weather, ts_temp) ->
     build_weekly_temp_data ts_temp = Ok wd ->
     getitem_key ts_weather "timeDefines" = Ok (JList time_defines) ->
     mapM iso_label time_defines = Ok dates ->
     getitem_key ts_weather "areas" = Ok (JList area_items) ->
     (forall k area, area_items !! k = Some area ->
                     area_processable v sm wd (length time_defines) k area) ->
     exists res,
       normalizer v raw = Ok res /\
       length res = length area_items /\
       forall k area weather_codes,
         area_items !! k = Some area ->
         getitem_key area "weatherCodes" = Ok (JList weather_codes) ->
         exists sf, res !! k = Some sf /\
                    length (forecasts sf)
                      = (length weather_codes `min` length time_defines)%nat).
Proof.
  split.
  - intros res i sf. destruct v; unfold normalizer.
    + unfold Rewrite._parse_jma_data.
      apply (forecast_count_generic _ _ _ rewrite_icon_safe rewrite_temperature_safe).
    + unfold Mfin._parse_jma_data.
      apply (forecast_count_generic _ _ _ mfin_icon_safe mfin_temperature_safe).
  - intros ss sm ws w t wd tds dates items Hss Hsm Hws Hsel Hwd Htd Hdates Hareas Hok.
    destruct v; unfold normalizer.
    + unfold Rewrite._parse_jma_data.
      apply (forecast_count_complete _ _ _ rewrite_icon_safe rewrite_temperature_safe
               raw ss sm ws w t wd tds dates items Hss Hsm Hws Hsel Hwd Htd Hdates Hareas).
      intros k area Hk. destruct (Hok k area Hk) as (a & nm & codes & Ha & Hnm & Hc & Hsteps).
      exists a, nm, codes. split; [exact Ha|]. split; [exact Hnm|]. split; [exact Hc|].
      intros j code Hj Hcode. destruct (Hsteps j code Hj Hcode) as ((n & Hn) & Htxt).
      split; [eapply rewrite_icon_of_int, Hn | exact Htxt].
    + unfold Mfin._parse_jma_data.
      apply (forecast_count_complete _ _ _ mfin_icon_safe mfin_temperature_safe
               raw ss sm ws w t wd tds dates items Hss Hsm Hws Hsel Hwd Htd Hdates Hareas).
      intros k area Hk. destruct (Hok k area Hk) as (a & nm & codes & Ha & Hnm & Hc & Hsteps).
      exists a, nm, codes. split; [exact Ha|]. split; [exact Hnm|]. split; [exact Hc|].
      intros j code Hj Hcode. destruct (Hsteps j code Hj Hcode) as ((n & Hn) & Htxt).
      split; [eapply mfin_icon_of_int, Hn | exact Htxt].
Qed.

(** C5.  When no series of the weekly report's time-series list has
    ["weatherCodes"] among the keys of its first area, the normalizer
    (either variant) returns the empty list. *)
Theorem no_weather_series_gives_empty (v : variant) (raw : json) :
  (forall l, weekly_series raw = Ok l ->
             Forall (fun s => first_area_has_key "weatherCodes" s = false) l) ->
  normalizer v raw = Ok [].
Proof.
  destruct v; unfold normalizer.
  - unfold Rewrite._parse_jma_data.
    apply (no_weather_series_generic _ _ _ rewrite_icon_safe rewrite_temperature_safe).
  - unfold Mfin._parse_jma_data.
    apply (no_weather_series_generic _ _ _ mfin_icon_safe mfin_temperature_safe).
Qed.

(** C6.  On every input value the normalizer (either variant) returns a
    list and raises nothing: the list the body built, or the empty list
    when the body raised. *)
Theorem normalizer_never_raises (v : variant) (raw : json) :
  exists res, normalizer v raw = Ok res /\
    match v with
    | DbVer =>
        parse_body Rewrite._get_weather_icon_and_color Rewrite._get_weather_status_text
          Rewrite._format_temperature raw = Ok res \/
        (exists e, parse_body Rewrite._get_weather_icon_and_color
                     Rewrite._get_weather_status_text Rewrite._format_temperature raw
                   = Raise e) /\ res = []
    | Lecture5 =>
        parse_body Mfin._get_jma_icon_and_color Mfin._get_jma_status_text
          Mfin.display_temp raw = Ok res \/
        (exists e, parse_body Mfin._get_jma_icon_and_color Mfin._get_jma_status_text
                     Mfin.display_temp raw = Raise e) /\ res = []
    end.
Proof.
  destruct v; unfold normalizer.
  - rewrite rewrite_parse_total.
    destruct (parse_body _ _ _ raw) as [r|e]; eauto 6.
  - rewrite mfin_parse_total.
    destruct (parse_body _ _ _ raw) as [r|e]; eauto 6.
Qed.

End NormalizerClaims.

(** ** The normalizer on the sample documents *)

Lemma step0_short_term_fallback_witness :
  @Rewrite._format_temperature sample_runtime
     (Some (Weekly (JList [JStr ""; JStr "2"]) (JList [JStr "7"; JStr "10"])))
     (JList [JStr "3"; JStr "11"]) 0 = Ok "3-11°C" /\
  @Mfin.display_temp sample_runtime
     (Some (Weekly (JList [JStr ""; JStr "2"]) (JList [JStr "7"; JStr "10"])))
     (JList [JStr "3"; JStr "11"]) 0 = Ok "3-11°C".
Proof.
  apply (@step0_short_term_fallback sample_runtime
           (JList [JStr ""; JStr "2"]) (JList [JStr "7"; JStr "10"]) (JStr "") (JStr "7")
           [JStr "3"; JStr "11"] eq_refl eq_refl (or_introl eq_refl)).
Defined.

(** The second subregion of the sample has two weather codes and four
    dates: in either variant the document comes out, with four entries for
    the first subregion and two for the second. *)
Lemma forecast_count_witness :
  (exists res sf0 sf1,
     @normalizer sample_runtime DbVer sample_raw = Ok res /\
     res = [sf0; sf1] /\
     length (forecasts sf0) = 4%nat /\ length (forecasts sf1) = 2%nat) /\
  (exists res sf0 sf1,
     @normalizer sample_runtime Lecture5 sample_raw = Ok res /\
     res = [sf0; sf1] /\
     length (forecasts sf0) = 4%nat /\ length (forecasts sf1) = 2%nat).
Proof.
  split.
  - edestruct (proj2 (@forecast_count sample_runtime DbVer sample_raw))
      as (res & Hres & Hlen & Hall).
    + reflexivity.
    + reflexivity.
    + reflexivity.
    + reflexivity.
    + reflexivity.
    + reflexivity.
    + reflexivity.
    + reflexivity.
    + intros k area Hk.
      destruct k as [|[|k]]; [| |discriminate]; injection Hk as <-;
        (eexists _, _, _; split; [reflexivity|]; split; [reflexivity|]; split; [reflexivity|]);
        intros j code Hj Hcode;
        (destruct j as [|[|[|[|j]]]]; [| | | |simpl in Hj; lia]);
        try discriminate; injection Hcode as <-;
        (split; eexists; reflexivity).
    + destruct (Hall 0%nat _ _ eq_refl eq_refl) as (sf0 & Hsf0 & Hl0).
      destruct (Hall 1%nat _ _ eq_refl eq_refl) as (sf1 & Hsf1 & Hl1).
      exists res, sf0, sf1. split; [exact Hres|]. split; [|split; [exact Hl0 | exact Hl1]].
      destruct res as [|r0 [|r1 [|r2 res]]]; try discriminate.
      simpl in Hsf0, Hsf1. congruence.
  - edestruct (proj2 (@forecast_count sample_runtime Lecture5 sample_raw))
      as (res & Hres & Hlen & Hall).
    + reflexivity.
    + reflexivity.
    + reflexivity.
    + reflexivity.
    + reflexivity.
    + reflexivity.
    + reflexivity.
    + reflexivity.
    + intros k area Hk.
      destruct k as [|[|k]]; [| |discriminate]; injection Hk as <-;
        (eexists _, _, _; split; [reflexivity|]; split; [reflexivity|]; split; [reflexivity|]);
        intros j code Hj Hcode;
        (destruct j as [|[|[|[|j]]]]; [| | | |simpl in Hj; lia]);
        try discriminate; injection Hcode as <-;
        (split; eexists; reflexivity).
    + destruct (Hall 0%nat _ _ eq_refl eq_refl) as (sf0 & Hsf0 & Hl0).
      destruct (Hall 1%nat _ _ eq_refl eq_refl) as (sf1 & Hsf1 & Hl1).
      exists res, sf0, sf1. split; [exact Hres|]. split; [|split; [exact Hl0 | exact Hl1]].
      destruct res as [|r0 [|r1 [|r2 res]]]; try discriminate.
      simpl in Hsf0, Hsf1. congruence.
Defined.

Lemma no_weather_series_gives_empty_witness :
  @normalizer sample_runtime DbVer (JList [sample_short; sample_weekly_no_weather]) = Ok [] /\
  @normalizer sample_runtime Lecture5 (JList [sample_short; sample_weekly_no_weather]) = Ok [].
Proof.
  assert (Hno : forall l,
            weekly_series (JList [sample_short; sample_weekly_no_weather]) = Ok l ->
            Forall (fun s => first_area_has_key "weatherCodes" s = false) l).
  { intros l Hl. vm_compute in Hl. injection Hl as <-.
    repeat constructor. }
  split; apply (@no_weather_series_gives_empty sample_runtime _ _ Hno).
Defined.

(** * Further properties of the normalizer *)

Lemma mapM_Ok_lookup {A B} (f : A -> result B) (l : list A) (r : list B) (j : nat) (b : B) :
  mapM f l = Ok r -> r !! j = Some b -> exists a, l !! j = Some a /\ f a = Ok b.
Proof.
  revert r j. induction l as [|x l IH]; intros r j Hr Hj; simpl in Hr.
  - injection Hr as <-. discriminate.
  - apply bind_Ok in Hr as (y & Hy & Hr).
    apply bind_Ok in Hr as (k & Hk & Hr).
    injection Hr as <-. destruct j as [|j]; simpl in Hj.
    + injection Hj as <-. exists x. split; [reflexivity | exact Hy].
    + apply (IH _ _ Hk Hj).
Qed.

Lemma mapM_Ok_all {A B} (f : A -> result B) (l : list A) (r : list B) (a : A) :
  mapM f l = Ok r -> a ∈ l -> exists b, f a = Ok b.
Proof.
  revert r. induction l as [|x l IH]; intros r Hr Ha; simpl in Hr.
  - inversion Ha.
  - apply bind_Ok in Hr as (y & Hy & Hr).
    apply bind_Ok in Hr as (k & Hk & Hr).
    apply elem_of_cons in Ha as [->|Ha]; [eauto | eapply IH; eauto].
Qed.

Section WeatherCodeTriples.
Context `{PyRuntime}.

(** Whenever the icon helper returns, the status helper names the same
    category. *)
Lemma icon_status_consistent (code : json) (ic : Icon) (col : Color) :
  Rewrite._get_weather_icon_and_color code = Ok (ic, col) ->
  (ic, col, Rewrite._get_weather_status_text code) ∈ category_triples.
Proof.
  unfold Rewrite._get_weather_icon_and_color, Rewrite._get_weather_status_text.
  destruct (py_int code) as [c|e]; simpl; [|discriminate].
  unfold category_triples.
  repeat (match goal with |- context [if ?b then _ else _] => destruct b end; simpl;
          try (intros [= <- <-]; set_solver)).
Qed.

(** An unreadable code stops the icon helper with [ValueError] or
    [TypeError], where the status helper answers "-". *)
Lemma icon_raises_where_status_defaults (code : json) (e : exn) :
  py_int code = Raise e ->
  Rewrite._get_weather_icon_and_color code = Raise e /\
  Rewrite._get_weather_status_text code = "-".
Proof.
  intros He. unfold Rewrite._get_weather_icon_and_color, Rewrite._get_weather_status_text.
  rewrite He. split; reflexivity.
Qed.

End WeatherCodeTriples.

Section NormalizerEntries.
Context `{PyRuntime}.
Variable icon_and_color : json -> result (Icon * Color).
Variable status_text : json -> string.
Variable display_temp : option weekly_temps -> json -> nat -> result string.
Hypothesis icon_and_color_safe : forall code, safe (icon_and_color code).
Hypothesis display_temp_safe : forall w s i, safe (display_temp w s i).

Local Abbreviation steps := (forecast_steps icon_and_color status_text display_temp).
Local Abbreviation areas_loop := (build_areas icon_and_color status_text display_temp).
Local Abbreviation body := (parse_body icon_and_color status_text display_temp).
Local Abbreviation parse := (parse_jma_data icon_and_color status_text display_temp).

(** Entry [j] of the inner loop comes from step [a + j]. *)
Lemma forecast_steps_lookup codes cw cs dates (a n : nat) fs (j : nat) fe :
  steps codes cw cs dates (seq a n) = Ok fs ->
  fs !! j = Some fe ->
  exists code,
    getitem_idx codes (a + j) = Ok code /\
    icon_and_color code = Ok (icon fe, color fe) /\
    status fe = status_text code /\
    display_temp cw cs (a + j)%nat = Ok (temp fe) /\
    dates !! (a + j)%nat = Some (day fe).
Proof.
  revert a fs j. induction n as [|n IH]; intros a fs j Hfs Hj; simpl in Hfs.
  - injection Hfs as <-. discriminate.
  - apply bind_Ok in Hfs as (nc & Hnc & Hfs).
    destruct (nc <=? a)%nat; [injection Hfs as <-; discriminate|].
    apply bind_Ok in Hfs as (code & Hcode & Hfs).
    apply bind_Ok in Hfs as ([ic col] & Hic & Hfs).
    apply bind_Ok in Hfs as (t & Ht & Hfs).
    apply bind_Ok in Hfs as (d & Hd & Hfs).
    apply bind_Ok in Hfs as (more & Hmore & Hfs).
    injection Hfs as <-.
    destruct j as [|j]; simpl in Hj.
    + injection Hj as <-. simpl. rewrite Nat.add_0_r. exists code.
      repeat split; try assumption.
      destruct (dates !! a); [injection Hd as <-; reflexivity | discriminate].
    + destruct (IH _ _ _ Hmore Hj) as (code' & H1 & H2 & H3 & H4 & H5).
      exists code'. replace (a + S j)%nat with (S a + j)%nat by lia.
      repeat split; assumption.
Qed.

(** All a successful, non-empty run of the body went through *)
Lemma parse_body_inv raw res :
  body raw = Ok res -> res <> [] ->
  exists ss sm ws ts_weather ts_temp wd td tds dates areas items,
    short_series raw = Ok ss /\
    short_term_temps ss = Ok sm /\
    weekly_series raw = Ok ws /\
    select_series ws None None = Ok (Some ts_weather, ts_temp) /\
    build_weekly_temp_data ts_temp = Ok wd /\
    getitem_key ts_weather "timeDefines" = Ok td /\
    py_iter td = Ok tds /\
    mapM iso_label tds = Ok dates /\
    getitem_key ts_weather "areas" = Ok areas /\
    py_iter areas = Ok items /\
    areas_loop sm wd td dates 0 items = Ok res.
Proof.
  intros Hres Hne. unfold parse_body in Hres.
  apply bind_Ok in Hres as (report_short & Hshort & Hres).
  apply bind_Ok in Hres as (report_weekly & Hweekly & Hres).
  apply bind_Ok in Hres as (ts_short & Htss & Hres).
  apply bind_Ok in Hres as (ss & Hss & Hres).
  apply bind_Ok in Hres as (sm & Hsm & Hres).
  apply bind_Ok in Hres as (ts_week & Hts & Hres).
  apply bind_Ok in Hres as (ws & Hws & Hres).
  apply bind_Ok in Hres as ([sw st] & Hsel & Hres).
  simpl in Hres.
  destruct (opt_truthy sw) eqn:Htr; simpl in Hres; [|injection Hres as <-; contradiction].
  apply bind_Ok in Hres as (wd & Hwd & Hres).
  apply bind_Ok in Hres as (ts_weather & Hw & Hres).
  apply bind_Ok in Hres as (td & Htd & Hres).
  apply bind_Ok in Hres as (tds & Htds & Hres).
  apply bind_Ok in Hres as (dates & Hdates & Hres).
  apply bind_Ok in Hres as (areas & Hareas & Hres).
  apply bind_Ok in Hres as (items & Hitems & Hres).
  destruct sw as [w|]; [|discriminate]. injection Hw as ->.
  exists ss, sm, ws, ts_weather, st, wd, td, tds, dates, areas, items.
  repeat split; try assumption.
  - unfold short_series. rewrite Hshort. simpl. rewrite Htss. exact Hss.
  - unfold weekly_series. rewrite Hweekly. simpl. rewrite Hts. exact Hws.
Qed.

Lemma entry_by_position_generic raw res k sf j fe :
  parse raw = Ok res ->
  res !! k = Some sf ->
  forecasts sf !! j = Some fe ->
  exists ss sm ws ts_weather ts_temp wd td tds t areas items area a codes code,
    short_series raw = Ok ss /\
    short_term_temps ss = Ok sm /\
    weekly_series raw = Ok ws /\
    select_series ws None None = Ok (Some ts_weather, ts_temp) /\
    build_weekly_temp_data ts_temp = Ok wd /\
    getitem_key ts_weather "timeDefines" = Ok td /\
    py_iter td = Ok tds /\
    tds !! j = Some t /\
    iso_label t = Ok (day fe) /\
    getitem_key ts_weather "areas" = Ok areas /\
    py_iter areas = Ok items /\
    items !! k = Some area /\
    getitem_key area "area" = Ok a /\
    getitem_key a "name" = Ok (area_name sf) /\
    getitem_key area "weatherCodes" = Ok codes /\
    getitem_idx codes j = Ok code /\
    icon_and_color code = Ok (icon fe, color fe) /\
    status fe = status_text code /\
    display_temp (wd !! k) (default (JList []) (sm !! k)) j = Ok (temp fe).
Proof.
  intros Hparse Hk Hj.
  assert (Hne : res <> []) by (intros ->; discriminate).
  rewrite parse_jma_data_total in Hparse by assumption.
  destruct (body raw) as [r|e] eqn:Hbody; injection Hparse as Heq; subst res; [|contradiction].
  apply parse_body_inv in Hbody
    as (ss & sm & ws & w & st & wd & td & tds & dates & areas & items &
        Hss & Hsm & Hws & Hsel & Hwd & Htd & Htds & Hdates & Hareas & Hitems & Hloop);
    [|exact Hne].
  destruct (build_areas_lookup _ _ _ _ _ _ _ _ _ _ _ _ Hloop Hk)
    as (area & a & codes & n_td & Harea & Ha & Hname & Hcodes & _ & Hsteps).
  destruct (forecast_steps_lookup _ _ _ _ _ _ _ _ _ Hsteps Hj)
    as (code & Hcode & Hic & Hst & Htemp & Hday).
  simpl in *.
  destruct (mapM_Ok_lookup _ _ _ _ _ Hdates Hday) as (t & Ht & Hlabel).
  exists ss, sm, ws, w, st, wd, td, tds, t, areas, items, area, a, codes, code.
  repeat split; assumption.
Qed.

(** A date the runtime cannot read empties the result. *)
Lemma bad_date_generic raw w td tds t :
  weather_series raw = Ok (Some w) ->
  getitem_key w "timeDefines" = Ok td ->
  py_iter td = Ok tds ->
  t ∈ tds ->
  (forall label, iso_label t <> Ok label) ->
  parse raw = Ok [].
Proof.
  intros Hw Htd Htds Ht Hbad.
  rewrite parse_jma_data_total by assumption.
  destruct (body raw) as [res|e] eqn:Hbody; [|reflexivity].
  destruct res as [|sf0 res0]; [reflexivity|]. exfalso.
  apply parse_body_inv in Hbody
    as (ss & sm & ws & w' & st & wd & td' & tds' & dates & areas & items &
        _ & _ & Hws & Hsel & _ & Htd' & Htds' & Hdates & _); [|discriminate].
  unfold weather_series in Hw. rewrite Hws in Hw. simpl in Hw. rewrite Hsel in Hw.
  simpl in Hw. injection Hw as ->.
  rewrite Htd in Htd'. injection Htd' as <-.
  rewrite Htds in Htds'. injection Htds' as <-.
  destruct (mapM_Ok_all _ _ _ _ Hdates Ht) as (label & Hlabel).
  exact (Hbad label Hlabel).
Qed.

End NormalizerEntries.

Section NormalizerExtras.
Context `{PyRuntime}.

(** X1.  Every entry the normalizer emits (either variant) carries one of
    the five (icon, color, status) triples: the icon, the color and the
    status text of an entry never name different categories. *)
Theorem entries_carry_one_category (v : variant) (raw : json)
    (res : list SubregionForecast) (sf : SubregionForecast) (fe : ForecastEntry) :
  normalizer v raw = Ok res ->
  sf ∈ res ->
  fe ∈ forecasts sf ->
  (icon fe, color fe, status fe) ∈ category_triples.
Proof.
  intros Hres Hsf Hfe.
  apply list_elem_of_lookup in Hsf as (k & Hk).
  apply list_elem_of_lookup in Hfe as (j & Hj).
  assert (exists code,
             Rewrite._get_weather_icon_and_color code = Ok (icon fe, color fe) /\
             status fe = Rewrite._get_weather_status_text code) as (code & Hic & ->).
  { destruct v; unfold normalizer in Hres.
    - unfold Rewrite._parse_jma_data in Hres.
      destruct (entry_by_position_generic _ _ _ rewrite_icon_safe rewrite_temperature_safe
                  _ _ _ _ _ _ Hres Hk Hj)
        as (? & ? & ? & ? & ? & ? & ? & ? & ? & ? & ? & ? & ? & ? & code & Hall).
      exists code. tauto.
    - unfold Mfin._parse_jma_data in Hres.
      destruct (entry_by_position_generic _ _ _ mfin_icon_safe mfin_temperature_safe
                  _ _ _ _ _ _ Hres Hk Hj)
        as (? & ? & ? & ? & ? & ? & ? & ? & ? & ? & ? & ? & ? & ? & code & Hall).
      exists code. tauto. }
  apply icon_status_consistent, Hic.
Qed.

(** X2.  Entry [j] of the record at position [k] of the normalizer's result
    (either variant) is built from the area at position [k] of the weather
    series: its name is [area.name], its icon, color and status come from
    [weatherCodes[j]], its day from [timeDefines[j]], and its temperature
    from the temperature data at the same position [k] of the weekly
    temperature series and of the short-term table (matched by position,
    not by name). *)
Theorem entry_by_position (v : variant) (raw : json) (res : list SubregionForecast)
    (k : nat) (sf : SubregionForecast) (j : nat) (fe : ForecastEntry) :
  normalizer v raw = Ok res ->
  res !! k = Some sf ->
  forecasts sf !! j = Some fe ->
  exists ss sm ws ts_weather ts_temp wd td tds t areas items area a codes code,
    short_series raw = Ok ss /\
    short_term_temps ss = Ok sm /\
    weekly_series raw = Ok ws /\
    select_series ws None None = Ok (Some ts_weather, ts_temp) /\
    build_weekly_temp_data ts_temp = Ok wd /\
    getitem_key ts_weather "timeDefines" = Ok td /\
    py_iter td = Ok tds /\
    tds !! j = Some t /\
    iso_label t = Ok (day fe) /\
    getitem_key ts_weather "areas" = Ok areas /\
    py_iter areas = Ok items /\
    items !! k = Some area /\
    getitem_key area "area" = Ok a /\
    getitem_key a "name" = Ok (area_name sf) /\
    getitem_key area "weatherCodes" = Ok codes /\
    getitem_idx codes j = Ok code /\
    Rewrite._get_weather_icon_and_color code = Ok (icon fe, color fe) /\
    status fe = Rewrite._get_weather_status_text code /\
    display_temperature v (wd !! k) (default (JList []) (sm !! k)) j = Ok (temp fe).
Proof.
  destruct v; unfold normalizer, display_temperature.
  - unfold Rewrite._parse_jma_data.
    apply (entry_by_position_generic _ _ _ rewrite_icon_safe rewrite_temperature_safe).
  - unfold Mfin._parse_jma_data.
    apply (entry_by_position_generic _ _ _ mfin_icon_safe mfin_temperature_safe).
Qed.

(** A series skipped for its falsy ["areas"] has no first area. *)
Lemma falsy_areas_no_key (series a : json) (k : string) :
  py_get series "areas" = Ok a -> truthy a = false -> first_area_has_key k series = false.
Proof.
  destruct series as [| | | | | |d]; try discriminate.
  simpl. intros [= <-]. unfold first_area_has_key. simpl.
  destruct (assoc "areas" d) as [x|]; simpl; [|reflexivity].
  destruct x as [|b|n|f|s|l|d']; simpl; intros Ht; try reflexivity.
  - destruct s; [reflexivity | discriminate].
  - destruct l; [reflexivity | discriminate].
Qed.

(** The weekly loop has no [break]: of the series that qualify, the last
    one is kept. *)
Lemma select_series_last (l : list json) (w t : option json) (sel : option json * option json) :
  select_series l w t = Ok sel ->
  sel.1 = match last (filter (fun s => first_area_has_key "weatherCodes" s = true) l) with
          | Some s => Some s
          | None => w
          end /\
  sel.2 = match last (filter (fun s => is_temp_series s = true) l) with
          | Some s => Some s
          | None => t
          end.
Proof.
  assert (Hlast : forall (x : json) (xs : list json) (d : option json),
            match last (x :: xs) with Some s => Some s | None => d end =
            match last xs with Some s => Some s | None => Some x end).
  { intros x xs d. destruct xs as [|y ys]; [reflexivity|].
    rewrite last_cons. destruct (last (y :: ys)); reflexivity. }
  revert w t sel. induction l as [|series rest IH]; intros w t sel Hsel; simpl in Hsel.
  - injection Hsel as <-. split; reflexivity.
  - apply bind_Ok in Hsel as (a & Ha & Hsel).
    destruct (truthy a) eqn:Hta; simpl in Hsel.
    + apply bind_Ok in Hsel as (areas & Hareas & Hsel).
      apply bind_Ok in Hsel as (first & Hfirst & Hsel).
      apply bind_Ok in Hsel as (keys & Hk & Hsel).
      assert (Hval : forall k, first_area_has_key k series = has_key k keys).
      { intros k. unfold first_area_has_key. rewrite Hareas. simpl.
        rewrite Hfirst. simpl. now rewrite Hk. }
      destruct (has_key "weatherCodes" keys) eqn:Hwc.
      * destruct (IH _ _ _ Hsel) as [H1 H2]. split.
        -- rewrite filter_cons, decide_True by (rewrite Hval; exact Hwc).
           rewrite Hlast. exact H1.
        -- rewrite filter_cons, decide_False; [exact H2|].
           unfold is_temp_series. rewrite !Hval, Hwc. discriminate.
      * destruct (has_key "temps" keys || has_key "tempsMin" keys) eqn:Htk;
          destruct (IH _ _ _ Hsel) as [H1 H2]; split.
        -- rewrite filter_cons, decide_False by (rewrite Hval, Hwc; discriminate).
           exact H1.
        -- rewrite filter_cons, decide_True
             by (unfold is_temp_series; rewrite !Hval, Hwc, Htk; reflexivity).
           rewrite Hlast. exact H2.
        -- rewrite filter_cons, decide_False by (rewrite Hval, Hwc; discriminate).
           exact H1.
        -- rewrite filter_cons, decide_False; [exact H2|].
           unfold is_temp_series. rewrite !Hval, Hwc, Htk. discriminate.
    + destruct (IH _ _ _ Hsel) as [H1 H2]. split.
      * rewrite filter_cons, decide_False; [exact H1|].
        rewrite (falsy_areas_no_key _ _ _ Ha Hta). discriminate.
      * rewrite filter_cons, decide_False; [exact H2|].
        unfold is_temp_series. rewrite !(falsy_areas_no_key _ _ _ Ha Hta). discriminate.
Qed.

(** X3.  The weather series the normalizer works on is the last series of
    the weekly list with ["weatherCodes"] among the keys of its first area,
    and the temperature series is the last one without ["weatherCodes"] but
    with ["temps"] or ["tempsMin"]: the loop has no [break], so a later
    series replaces an earlier one. *)
Theorem last_matching_series_wins (ws : list json) (sel : option json * option json) :
  select_series ws None None = Ok sel ->
  sel.1 = last (filter (fun s => first_area_has_key "weatherCodes" s = true) ws) /\
  sel.2 = last (filter (fun s => is_temp_series s = true) ws).
Proof.
  intros Hsel. destruct (select_series_last _ _ _ _ Hsel) as [H1 H2].
  assert (Hid : forall o : option json, match o with Some s => Some s | None => None end = o)
    by (intros [s|]; reflexivity).
  rewrite H1, H2, !Hid. split; reflexivity.
Qed.

(** X4.  One entry of [timeDefines] that is not a text
    [datetime.fromisoformat] reads makes the normalizer (either variant)
    return the empty list, whatever the rest of the document holds. *)
Theorem unreadable_date_gives_empty (v : variant) (raw w td : json) (tds : list json)
    (t : json) :
  weather_series raw = Ok (Some w) ->
  getitem_key w "timeDefines" = Ok td ->
  py_iter td = Ok tds ->
  t ∈ tds ->
  (forall label, iso_label t <> Ok label) ->
  normalizer v raw = Ok [].
Proof.
  destruct v; unfold normalizer.
  - unfold Rewrite._parse_jma_data.
    apply (bad_date_generic _ _ _ rewrite_icon_safe rewrite_temperature_safe).
  - unfold Mfin._parse_jma_data.
    apply (bad_date_generic _ _ _ mfin_icon_safe mfin_temperature_safe).
Qed.

(** X5.  For a daily-single area (either variant) the text at a step is the
    value followed by "°C" when the value is truthy and "--" otherwise: a
    non-empty string is printed as it is, the empty string, [null] and the
    number 0 give "--"; without any temperature data for the subregion the
    text is "--". *)
Theorem daily_single_temperature (v : variant) (temps val short : json) (i : nat) :
  getitem_idx temps i = Ok val ->
  display_temperature v (Some (Daily temps)) short i
    = Ok (if truthy val then py_format val +:+ "°C" else "--") /\
  display_temperature v None short i = Ok "--" /\
  (forall s, val = JStr s -> s <> "" ->
             display_temperature v (Some (Daily temps)) short i = Ok (s +:+ "°C")) /\
  (val = JStr "" \/ val = JNull \/ val = JInt 0 ->
   display_temperature v (Some (Daily temps)) short i = Ok "--").
Proof.
  intros Hval.
  assert (Hd : display_temperature v (Some (Daily temps)) short i
               = Ok (if truthy val then py_format val +:+ "°C" else "--")).
  { destruct v; simpl; rewrite Hval; simpl; destruct (truthy val); reflexivity. }
  repeat split.
  - exact Hd.
  - destruct v; reflexivity.
  - intros s -> Hs. rewrite Hd. simpl.
    destruct (String.eqb_spec s ""); [contradiction | reflexivity].
  - intros [-> | [-> | ->]]; rewrite Hd; reflexivity.
Qed.

(** X6.  A document with one report is normalized as if that report were
    given twice: the only report serves as short-range and as weekly
    report. *)
Theorem single_report_serves_both_roles (v : variant) (report : json) :
  normalizer v (JList [report]) = normalizer v (JList [report; report]).
Proof. destruct v; reflexivity. Qed.

(** The short-term loop stops at the first series that qualifies. *)
Lemma short_term_temps_first (l : list json) (sm : list json) :
  short_term_temps l = Ok sm ->
  match List.find has_short_temps l with
  | Some series =>
      exists areas items,
        getitem_key series "areas" = Ok areas /\
        py_iter areas = Ok items /\
        mapM (fun area => getitem_key area "temps") items = Ok sm
  | None => sm = []
  end.
Proof.
  revert sm. induction l as [|series rest IH]; intros sm Hsm; simpl in Hsm.
  - injection Hsm as <-. reflexivity.
  - simpl. apply bind_Ok in Hsm as (a & Ha & Hsm).
    unfold has_short_temps at 1. rewrite Ha. simpl.
    destruct (truthy a); simpl in *; [|apply IH, Hsm].
    apply bind_Ok in Hsm as (areas & Hareas & Hsm).
    apply bind_Ok in Hsm as (first & Hfirst & Hsm).
    apply bind_Ok in Hsm as (found & Hfound & Hsm).
    rewrite Hareas. simpl. rewrite Hfirst. simpl. rewrite Hfound.
    destruct found; [|apply IH, Hsm].
    apply bind_Ok in Hsm as (areas' & Hareas' & Hsm).
    apply bind_Ok in Hsm as (items & Hitems & Hsm).
    exists areas', items. repeat split; assumption.
Qed.

(** X7.  The short-term temperature table holds the ["temps"] of the areas
    of the first series of the short-range report whose first area has
    ["temps"] (later series are not read), one entry per area and in area
    order; it is empty when no series qualifies. *)
Theorem short_term_table_from_first_series (l sm : list json) :
  short_term_temps l = Ok sm ->
  match List.find has_short_temps l with
  | Some series =>
      exists areas items,
        getitem_key series "areas" = Ok areas /\
        py_iter areas = Ok items /\
        length sm = length items /\
        forall k temps, sm !! k = Some temps ->
                        exists area, items !! k = Some area /\
                                     getitem_key area "temps" = Ok temps
  | None => sm = []
  end.
Proof.
  intros Hsm. apply short_term_temps_first in Hsm.
  destruct (List.find has_short_temps l); [|exact Hsm].
  destruct Hsm as (areas & items & Hareas & Hitems & Hmap).
  exists areas, items. repeat split; try assumption.
  - eapply mapM_Ok_length, Hmap.
  - intros k temps Hk. eapply mapM_Ok_lookup; eauto.
Qed.

End NormalizerExtras.

(** * Further properties of the persisted store *)

(** ** The order on [TEXT] values *)



Lemma text_le_spec (a b : string) :
  text_le a b = true <-> a = b \/ String_as_OT.lt a b.
Proof.
  unfold text_le.
  destruct (String_as_OT.compare_spec a b) as [Heq|Hab|Hba]; split; intros Hx;
    try reflexivity; try discriminate; auto.
  exfalso. destruct Hx as [->|Hab].
  - exact (StrictOrder_Irreflexive b Hba).
  - exact (StrictOrder_Irreflexive a (StrictOrder_Transitive _ _ _ Hab Hba)).
Qed.

Lemma text_le_total (a b : string) : text_le a b = false -> text_le b a = true.
Proof.
  intros Hab. apply text_le_spec.
  unfold text_le in Hab.
  destruct (String_as_OT.compare_spec a b) as [Heq|Hlt|Hgt]; try discriminate.
  right. exact Hgt.
Qed.

Lemma text_le_trans (a b c : string) :
  text_le a b = true -> text_le b c = true -> text_le a c = true.
Proof.
  rewrite !text_le_spec. intros [->|Hab] [->|Hbc]; auto.
  right. exact (StrictOrder_Transitive _ _ _ Hab Hbc).
Qed.





#[local] Instance created_asc_trans : Transitive created_asc.
Proof. intros x y z. unfold created_asc. apply text_le_trans. Qed.

#[local] Instance fetched_desc_trans : Transitive fetched_desc.
Proof. intros x y z Hxy Hyz. unfold fetched_desc in *. eapply text_le_trans; eauto. Qed.

(** ** [get_saved_areas] *)

Lemma insert_by_created_perm (r : SavedArea) (l : list SavedArea) :
  insert_by_created r l ≡ₚ r :: l.
Proof.
  induction l as [|x l IH]; simpl; [reflexivity|].
  destruct (text_le _ _); [reflexivity|].
  rewrite IH. apply Permutation_swap.
Qed.

Lemma order_by_created_perm (rows : list SavedArea) : order_by_created rows ≡ₚ rows.
Proof.
  induction rows as [|r rows IH]; simpl; [reflexivity|].
  rewrite insert_by_created_perm. now rewrite IH.
Qed.

Lemma insert_by_created_hd (x r : SavedArea) (l : list SavedArea) :
  HdRel created_asc x l -> created_asc x r -> HdRel created_asc x (insert_by_created r l).
Proof.
  intros Hl Hr. destruct l as [|y l]; simpl; [constructor; exact Hr|].
  destruct (text_le _ _); constructor; [exact Hr|].
  now inversion Hl.
Qed.

Lemma insert_by_created_sorted (r : SavedArea) (l : list SavedArea) :
  Sorted created_asc l -> Sorted created_asc (insert_by_created r l).
Proof.
  induction 1 as [|x l Hs IH Hhd]; simpl; [repeat constructor|].
  destruct (text_le (sa_created_at r) (sa_created_at x)) eqn:Hle.
  - constructor; [constructor; assumption | constructor; exact Hle].
  - constructor; [exact IH|].
    apply insert_by_created_hd; [exact Hhd | apply text_le_total, Hle].
Qed.

Lemma order_by_created_sorted (rows : list SavedArea) :
  StronglySorted created_asc (order_by_created rows).
Proof.
  apply Sorted_StronglySorted; [apply _|].
  induction rows as [|r rows IH]; simpl; [constructor|].
  apply insert_by_created_sorted, IH.
Qed.

(** X8.  [get_saved_areas] returns the names of all rows of the favorites
    table, each as often as it has rows, ordered by creation time
    (oldest first), and changes neither table. *)
Theorem saved_areas_listed_by_creation (d : WeatherDB) :
  exists rows,
    (get_saved_areas d).1 = sa_area_name <$> rows /\
    rows ≡ₚ saved_areas d /\
    StronglySorted created_asc rows /\
    saved_areas (get_saved_areas d).2 = saved_areas d /\
    weather_history (get_saved_areas d).2 = weather_history d.
Proof.
  exists (order_by_created (saved_areas d)). repeat split.
  - apply order_by_created_perm.
  - apply order_by_created_sorted.
Qed.

(** ** [get_weather_history] *)








(** ** [delete_old_weather_data] *)


(** ** [save_weather_data] and the queries *)




(** X12.  [save_weather_data] adds one row: [get_weather_data_count] for the
    region and the total count grow by one, the count of every other
    region stays; the count asked for the empty name is the total count
    (the test [if area_name:] treats it like [None]). *)
Theorem count_after_save (clk : Clock) (area_name : string)
    (parsed_data : list SubregionForecast) (fetched_at : option string) (d : WeatherDB) :
  let d' := save_weather_data clk area_name parsed_data fetched_at d in
  get_weather_data_count None d' = S (get_weather_data_count None d) /\
  (area_name <> "" ->
   get_weather_data_count (Some area_name) d' = S (get_weather_data_count (Some area_name) d)) /\
  (forall other, other <> area_name -> other <> "" ->
     get_weather_data_count (Some other) d' = get_weather_data_count (Some other) d) /\
  get_weather_data_count (Some "") d' = get_weather_data_count None d'.
Proof.
  intros d'. unfold d', save_weather_data, get_weather_data_count. simpl.
  repeat split.
  - rewrite length_app. simpl. lia.
  - intros Hname. destruct (String.eqb_spec area_name ""); [contradiction|].
    rewrite filter_app, length_app. simpl.
    rewrite filter_cons, decide_True by reflexivity. simpl. lia.
  - intros other Hother Hne. destruct (String.eqb_spec other ""); [contradiction|].
    rewrite filter_app, length_app. simpl.
    rewrite filter_cons, decide_False by (simpl; congruence). simpl. lia.
Qed.

(** ** [get_database_stats] *)





(** * Further properties of the application ([rewrite_.py]) *)

Lemma area_saved_spec (name : string) (rows : list SavedArea) :
  area_saved name rows = true <-> name ∈ sa_area_name <$> rows.
Proof.
  unfold area_saved. induction rows as [|r rows IH]; simpl.
  - split; [discriminate | intros Hin; inversion Hin].
  - rewrite orb_true_iff, IH, elem_of_cons, String.eqb_eq. intuition congruence.
Qed.

Lemma region_saved_spec (name : string) (l : list string) :
  Rewrite.region_saved name l = true <-> name ∈ l.
Proof.
  unfold Rewrite.region_saved. induction l as [|x l IH]; simpl.
  - split; [discriminate | intros Hin; inversion Hin].
  - rewrite orb_true_iff, IH, elem_of_cons, String.eqb_eq. reflexivity.
Qed.

Lemma filter_all {A} (P : A -> Prop) `{forall x, Decision (P x)} (l : list A) :
  (forall z, z ∈ l -> P z) -> filter P l = l.
Proof.
  induction l as [|y l IH]; intros Hall; [reflexivity|].
  rewrite filter_cons, decide_True by (apply Hall; left).
  f_equal. apply IH. intros z Hz. apply Hall. right. exact Hz.
Qed.

Lemma filter_none {A} (P : A -> Prop) `{forall x, Decision (P x)} (l : list A) :
  (forall z, z ∈ l -> ~ P z) -> filter P l = [].
Proof.
  induction l as [|y l IH]; intros Hall; [reflexivity|].
  rewrite filter_cons, decide_False by (apply Hall; left).
  apply IH. intros z Hz. apply Hall. right. exact Hz.
Qed.

(** [l.remove(x)] on a list without duplicates drops [x] altogether. *)
Lemma list_remove_NoDup (x : string) (l : list string) :
  NoDup l -> Rewrite.list_remove x l = filter (fun y => y <> x) l.
Proof.
  induction 1 as [|y l Hy Hl IH]; simpl; [reflexivity|].
  destruct (String.eqb_spec y x) as [->|Hne].
  - rewrite filter_cons, decide_False by (intros Hc; apply Hc; reflexivity).
    symmetry. apply filter_all. intros z Hz ->. contradiction.
  - rewrite filter_cons, decide_True by exact Hne. now rewrite IH.
Qed.

Lemma saved_names_filter (name : string) (rows : list SavedArea) :
  sa_area_name <$> filter (fun r => sa_area_name r <> name) rows
  = filter (fun y => y <> name) (sa_area_name <$> rows).
Proof.
  induction rows as [|r rows IH]; [reflexivity|].
  rewrite fmap_cons, !filter_cons.
  destruct (decide (sa_area_name r <> name)); [rewrite fmap_cons|]; rewrite IH; reflexivity.
Qed.

Section AppEffects.
Context `{PyRuntime}.

(** What [fetch_weather_data] does to the store: the favorites are kept,
    and the history is kept or gets one row with a non-empty payload. *)
Lemma fetch_store net clk region_id region_name dm :
  let dm' := (Rewrite.fetch_weather_data net clk region_id region_name dm).2 in
  saved_areas (Rewrite.db dm') = saved_areas (Rewrite.db dm) /\
  Rewrite.name_to_id dm' = Rewrite.name_to_id dm /\
  (weather_history (Rewrite.db dm') = weather_history (Rewrite.db dm) \/
   exists row,
     weather_history (Rewrite.db dm') = weather_history (Rewrite.db dm) ++ [row] /\
     h_area_name row = region_name /\
     h_json_data row <> [] /\
     h_id row = history_seq (Rewrite.db dm) + 1).
Proof.
  unfold Rewrite.fetch_weather_data, Rewrite.fetch_try, Rewrite.fetch_except.
  destruct net as [raw|e].
  - destruct (Rewrite._parse_jma_data raw) as [parsed|e].
    + destruct parsed as [|sf parsed]; simpl; [auto|].
      repeat split. right. eexists. repeat split. discriminate.
    + destruct (is_Exception e); simpl; [|auto].
      destruct (latest_row _ _ _) as [row|]; simpl; [|auto].
      destruct (h_json_data row); simpl; auto.
  - destruct (is_Exception e); simpl; [|auto].
    destruct (latest_row _ _ _) as [row|]; simpl; [|auto].
    destruct (h_json_data row); simpl; auto.
Qed.

Lemma update_weather_display_store net clk region_name app :
  let app' := (Rewrite.update_weather_display net clk region_name app).2 in
  let d := Rewrite.db (Rewrite.data_manager app) in
  let d' := Rewrite.db (Rewrite.data_manager app') in
  Rewrite.current_saved_regions app' = Rewrite.current_saved_regions app /\
  saved_areas d' = saved_areas d /\
  Rewrite.name_to_id (Rewrite.data_manager app') = Rewrite.name_to_id (Rewrite.data_manager app) /\
  (weather_history d' = weather_history d \/
   exists row,
     weather_history d' = weather_history d ++ [row] /\
     h_area_name row = region_name /\
     h_json_data row <> [] /\
     h_id row = history_seq d + 1).
Proof.
  unfold Rewrite.update_weather_display.
  destruct (Rewrite.weather_data _ !! region_name); simpl; [auto|].
  destruct (Rewrite.name_to_id _ !! region_name) as [region_id|]; simpl; [|auto].
  destruct (String.eqb region_id ""); simpl; [auto|].
  pose proof (fetch_store net clk region_id region_name (Rewrite.data_manager app)) as Hf.
  destruct (Rewrite.fetch_weather_data _ _ _ _ _) as [r dm1]. simpl in *.
  tauto.
Qed.

Lemma update_weather_display_inv net clk region_name app :
  app_inv app -> app_inv (Rewrite.update_weather_display net clk region_name app).2.
Proof.
  intros (Hnd & Hperm & Hpay).
  destruct (update_weather_display_store net clk region_name app) as (Hcur & Hsaved & _ & Hhist).
  unfold app_inv. rewrite Hcur, Hsaved. repeat split; try assumption.
  destruct Hhist as [-> | (row & -> & _ & Hrow & _)]; [assumption|].
  apply Forall_app. split; [assumption | repeat constructor; assumption].
Qed.

Lemma add_region_inv net clk region_name app :
  app_inv app -> app_inv (Rewrite.add_region net clk region_name app).2.
Proof.
  intros Hinv. unfold Rewrite.add_region.
  destruct (String.eqb region_name "" ||
            Rewrite.region_saved region_name (Rewrite.current_saved_regions app)) eqn:Hskip.
  - destruct (negb (String.eqb region_name "")); [|exact Hinv].
    apply update_weather_display_inv, Hinv.
  - apply update_weather_display_inv.
    apply orb_false_iff in Hskip as [_ Hnew].
    assert (Hout : region_name ∉ Rewrite.current_saved_regions app).
    { intros Hin. apply region_saved_spec in Hin. congruence. }
    destruct Hinv as (Hnd & Hperm & Hpay). unfold app_inv. simpl.
    assert (Hfresh : area_saved region_name
                       (saved_areas (Rewrite.db (Rewrite.data_manager app))) = false).
    { destruct (area_saved _ _) eqn:Hs; [|reflexivity].
      apply area_saved_spec in Hs. rewrite Hperm in Hs. contradiction. }
    rewrite Hfresh. repeat split.
    + apply NoDup_app. repeat split; [assumption | | apply NoDup_singleton].
      intros x Hx Hx'. apply list_elem_of_singleton in Hx' as ->. contradiction.
    + rewrite fmap_app. simpl. now rewrite Hperm.
    + assumption.
Qed.

Lemma remove_region_inv region_name app :
  app_inv app -> app_inv (Rewrite.remove_region region_name app).
Proof.
  intros (Hnd & Hperm & Hpay). unfold Rewrite.remove_region.
  destruct (Rewrite.region_saved _ _); [|repeat split; assumption].
  unfold app_inv. simpl. rewrite (list_remove_NoDup _ _ Hnd), saved_names_filter.
  repeat split.
  - apply NoDup_filter, Hnd.
  - now rewrite Hperm.
  - assumption.
Qed.

(** A start of the application on a store whose favorites have distinct
    names and whose snapshots are non-empty *)
Lemma WeatherApp_init_inv names ids net clk store :
  NoDup (sa_area_name <$> saved_areas store) ->
  Forall (fun r => h_json_data r <> []) (weather_history store) ->
  app_inv (Rewrite.WeatherApp_init names ids net clk store).2.
Proof.
  intros Hnd Hpay. unfold Rewrite.WeatherApp_init. simpl.
  apply update_weather_display_inv.
  pose proof (order_by_created_perm (saved_areas store)) as Hperm.
  destruct (sa_area_name <$> order_by_created (saved_areas store)) as [|x xs] eqn:Hsaved; simpl.
  - assert (Hnil : saved_areas store = []).
    { apply fmap_nil_inv in Hsaved. rewrite Hsaved in Hperm.
      symmetry. symmetry in Hperm. now apply Permutation_nil_r in Hperm. }
    unfold app_inv. simpl. rewrite Hnil. simpl.
    split; [apply NoDup_singleton|]. split; [reflexivity | assumption].
  - unfold app_inv. simpl. rewrite <- Hsaved.
    split; [now rewrite Hperm|]. split; [now rewrite Hperm | assumption].
Qed.

Lemma reachable_app_inv (app : Rewrite.WeatherApp) :
  Rewrite.reachable app -> app_inv app.
Proof.
  induction 1 as [names ids net clk | app names ids net clk _ IH
                 | app net clk name _ IH | app name _ IH | app net clk name _ IH].
  - apply WeatherApp_init_inv; simpl; constructor.
  - destruct IH as (Hnd & Hperm & Hpay).
    apply WeatherApp_init_inv; [now rewrite Hperm | assumption].
  - apply add_region_inv, IH.
  - apply remove_region_inv, IH.
  - apply update_weather_display_inv, IH.
Qed.

(** X14.  In every state the application reaches, the favorites list has
    no duplicate, it holds exactly the names of the rows of the favorites
    table, and no persisted snapshot has an empty payload. *)
Theorem reachable_states_consistent (app : Rewrite.WeatherApp) :
  Rewrite.reachable app ->
  NoDup (Rewrite.current_saved_regions app) /\
  sa_area_name <$> saved_areas (Rewrite.db (Rewrite.data_manager app))
    ≡ₚ Rewrite.current_saved_regions app /\
  Forall (fun r => h_json_data r <> [])
         (weather_history (Rewrite.db (Rewrite.data_manager app))).
Proof. intros Hreach. exact (reachable_app_inv app Hreach). Qed.

End AppEffects.

Section AppExtras.
Context `{PyRuntime}.

(** X15.  In a state the application reaches, [remove_region] takes the
    name out of the favorites list and out of the favorites table and keeps
    every other favorite in its place; the cached forecast of the region
    and the whole history stay; removing a name that is not a favorite
    changes nothing. *)
Theorem remove_region_effect (app : Rewrite.WeatherApp) (region_name : string) :
  Rewrite.reachable app ->
  let app' := Rewrite.remove_region region_name app in
  let d := Rewrite.db (Rewrite.data_manager app) in
  let d' := Rewrite.db (Rewrite.data_manager app') in
  (region_name ∉ Rewrite.current_saved_regions app') /\
  favorite_rows region_name d' = [] /\
  Rewrite.current_saved_regions app'
    = filter (fun y => y <> region_name) (Rewrite.current_saved_regions app) /\
  saved_areas d' = filter (fun r => sa_area_name r <> region_name) (saved_areas d) /\
  Rewrite.weather_data (Rewrite.data_manager app')
    = Rewrite.weather_data (Rewrite.data_manager app) /\
  weather_history d' = weather_history d /\
  (region_name ∉ Rewrite.current_saved_regions app -> app' = app).
Proof.
  intros Hreach. apply reachable_app_inv in Hreach as (Hnd & Hperm & _).
  cbv zeta. unfold Rewrite.remove_region.
  destruct (Rewrite.region_saved region_name (Rewrite.current_saved_regions app)) eqn:Hs.
  - simpl. rewrite (list_remove_NoDup _ _ Hnd). repeat split.
    + intros Hin. apply list_elem_of_filter in Hin as [Hne _]. now apply Hne.
    + unfold favorite_rows. simpl. apply filter_none.
      intros r Hr Heq. apply list_elem_of_filter in Hr as [Hne _]. contradiction.
    + apply region_saved_spec in Hs. contradiction.
  - assert (Hout : region_name ∉ Rewrite.current_saved_regions app).
    { intros Hin. apply region_saved_spec in Hin. congruence. }
    repeat split.
    + exact Hout.
    + unfold favorite_rows. apply filter_none. intros r Hr Heq.
      apply Hout. rewrite <- Hperm, <- Heq. apply list_elem_of_fmap. eauto.
    + symmetry. apply filter_all. intros z Hz ->. contradiction.
    + symmetry. apply filter_all. intros r Hr Heq. apply Hout.
      rewrite <- Hperm, <- Heq. apply list_elem_of_fmap. eauto.
Qed.

(** X16.  No action of the application rewrites or deletes history: after
    [update_weather_display], [add_region], [remove_region] or a start of
    the application, the history table is the old one with at most one row
    appended, and an appended row has a non-empty payload. *)
Theorem history_only_grows (net : result json) (clk : Clock) (region_name : string)
    (app : Rewrite.WeatherApp) (names : list string) (ids : gmap string string) :
  let h (a : Rewrite.WeatherApp) := weather_history (Rewrite.db (Rewrite.data_manager a)) in
  let grows (old new : list HistoryRow) :=
    new = old \/ exists row, new = old ++ [row] /\ h_json_data row <> [] in
  grows (h app) (h (Rewrite.update_weather_display net clk region_name app).2) /\
  grows (h app) (h (Rewrite.add_region net clk region_name app).2) /\
  grows (h app) (h (Rewrite.remove_region region_name app)) /\
  grows (h app)
        (h (Rewrite.WeatherApp_init names ids net clk (Rewrite.db (Rewrite.data_manager app))).2).
Proof.
  intros h grows.
  assert (Hdisp : forall name a,
            grows (h a) (h (Rewrite.update_weather_display net clk name a).2)).
  { intros name a.
    destruct (update_weather_display_store net clk name a) as (_ & _ & _ & Hh).
    destruct Hh as [Hh | (row & Hh & _ & Hrow & _)]; [left; exact Hh|].
    right. exists row. split; assumption. }
  repeat split.
  - apply Hdisp.
  - unfold Rewrite.add_region.
    destruct (String.eqb region_name "" || _); [destruct (negb _); [apply Hdisp | left; reflexivity]|].
    match goal with |- grows _ (h (Rewrite.update_weather_display _ _ _ ?a).2) =>
      apply (Hdisp region_name a) end.
  - unfold Rewrite.remove_region. destruct (Rewrite.region_saved _ _); left; reflexivity.
  - unfold Rewrite.WeatherApp_init. simpl.
    match goal with |- grows _ (h (Rewrite.update_weather_display _ _ ?n ?a).2) =>
      pose proof (Hdisp n a) as Hd end.
    destruct (sa_area_name <$> order_by_created _); exact Hd.
Qed.

End AppExtras.

(** * Further properties: search, date filter, and [mfin.py]'s fetch *)

(** ** Containment of text *)





(** ** The date filter *)

Lemma existsb_eqb_spec (x : string) (l : list string) :
  existsb (String.eqb x) l = true <-> x ∈ l.
Proof.
  induction l as [|y l IH]; simpl.
  - split; [discriminate | intros Hin; inversion Hin].
  - rewrite orb_true_iff, IH, elem_of_cons, String.eqb_eq. reflexivity.
Qed.

Lemma unique_days_spec (seen : list string) (fs : list ForecastEntry) :
  NoDup (RewriteUI.unique_days seen fs) /\
  (forall x, x ∈ RewriteUI.unique_days seen fs <-> x ∈ day <$> fs /\ x ∉ seen) /\
  RewriteUI.unique_days seen fs `sublist_of` (day <$> fs).
Proof.
  revert seen. induction fs as [|f fs IH]; intros seen; cbn [RewriteUI.unique_days].
  - rewrite fmap_nil. split; [constructor|]. split; [|constructor].
    intros x. split; [intros Hx; inversion Hx | intros [Hx _]; inversion Hx].
  - destruct (existsb (String.eqb (day f)) seen) eqn:Hseen.
    + apply existsb_eqb_spec in Hseen.
      destruct (IH seen) as (Hnd & Hin & Hsub). split; [exact Hnd|]. split.
      * intros x. rewrite Hin, fmap_cons, elem_of_cons. split; [tauto|].
        intros [[->|Hx] Hout]; [contradiction | tauto].
      * rewrite fmap_cons. apply sublist_cons, Hsub.
    + assert (Hout : day f ∉ seen).
      { intros Hin. apply existsb_eqb_spec in Hin. congruence. }
      destruct (IH (day f :: seen)) as (Hnd & Hin & Hsub). split; [|split].
      * constructor; [|exact Hnd]. rewrite Hin, elem_of_cons. tauto.
      * intros x. rewrite fmap_cons, !elem_of_cons, Hin, elem_of_cons.
        destruct (decide (x = day f)) as [->|Hne]; tauto.
      * rewrite fmap_cons. apply sublist_skip, Hsub.
Qed.

Lemma first_at_exists (l : list string) (x : string) :
  x ∈ l -> exists p, first_at l p x.
Proof.
  induction l as [|y l IH]; intros Hx; [inversion Hx|].
  destruct (decide (x = y)) as [->|Hne].
  - exists 0%nat. split; [reflexivity|]. intros Hin. inversion Hin.
  - apply elem_of_cons in Hx as [Hx|Hx]; [contradiction|].
    destruct (IH Hx) as (p & Hp & Hout). exists (S p). split; [exact Hp|].
    simpl. intros Hin. apply elem_of_cons in Hin as [Hin|Hin]; contradiction.
Qed.

Lemma first_at_later (l : list string) (p : nat) (x y : string) :
  first_at l p x -> x <> y -> first_at (y :: l) (S p) x.
Proof.
  intros [Hp Hout] Hne. split; [exact Hp|].
  simpl. intros Hin. apply elem_of_cons in Hin as [Hin|Hin]; contradiction.
Qed.

(** The days come out in the order of their first appearance. *)
Lemma unique_days_order (seen : list string) (fs : list ForecastEntry)
    (i j : nat) (d e : string) :
  RewriteUI.unique_days seen fs !! i = Some d ->
  RewriteUI.unique_days seen fs !! j = Some e ->
  (i < j)%nat ->
  exists p q, (p < q)%nat /\ first_at (day <$> fs) p d /\ first_at (day <$> fs) q e.
Proof.
  revert seen i j. induction fs as [|f fs IH]; intros seen i j Hi Hj Hij;
    cbn [RewriteUI.unique_days] in Hi, Hj; [discriminate|].
  rewrite fmap_cons.
  destruct (existsb (String.eqb (day f)) seen) eqn:Hseen.
  - apply existsb_eqb_spec in Hseen.
    destruct (IH seen i j Hi Hj Hij) as (p & q & Hpq & Hp & Hq).
    destruct (unique_days_spec seen fs) as (_ & Hin & _).
    assert (Hd : d <> day f).
    { intros ->. apply list_elem_of_lookup_2 in Hi. apply Hin in Hi. tauto. }
    assert (He : e <> day f).
    { intros ->. apply list_elem_of_lookup_2 in Hj. apply Hin in Hj. tauto. }
    exists (S p), (S q). split; [lia|]. split; apply first_at_later; assumption.
  - destruct (unique_days_spec (day f :: seen) fs) as (_ & Hin & _).
    destruct j as [|j]; [lia|]. simpl in Hj.
    assert (He : e ∈ day <$> fs /\ e <> day f).
    { apply list_elem_of_lookup_2 in Hj. apply Hin in Hj as [He Hout].
      split; [exact He|]. intros ->. apply Hout. left. }
    destruct i as [|i]; simpl in Hi.
    + injection Hi as <-. destruct (first_at_exists _ _ (proj1 He)) as (q & Hq).
      exists 0%nat, (S q). split; [lia|]. split.
      * split; [reflexivity|]. intros Hx. inversion Hx.
      * apply first_at_later; tauto.
    + destruct (IH (day f :: seen) i j Hi Hj ltac:(lia)) as (p & q & Hpq & Hp & Hq).
      assert (Hd : d <> day f).
      { intros ->. apply list_elem_of_lookup_2 in Hi. apply Hin in Hi as [_ Hout].
        apply Hout. left. }
      exists (S p), (S q). split; [lia|]. split; apply first_at_later; tauto.
Qed.

(** X18.  [_update_date_dropdown] offers each day of the first subregion
    once, in order of first appearance (a day offered before another one
    first appears before it among the entries), and leaves the filter on a
    valid choice: the value afterwards is "All" or one of the offered days,
    never empty, and a value that was an offered day is kept. *)
Theorem date_dropdown_valid (first : SubregionForecast) (others : list SubregionForecast)
    (value : option string) :
  let (unique_dates, value') := RewriteUI._update_date_dropdown (first :: others) value in
  NoDup unique_dates /\
  (forall x, x ∈ unique_dates <-> x ∈ day <$> forecasts first) /\
  unique_dates `sublist_of` (day <$> forecasts first) /\
  (forall i j d e,
     unique_dates !! i = Some d -> unique_dates !! j = Some e -> (i < j)%nat ->
     exists p q, (p < q)%nat /\
                 first_at (day <$> forecasts first) p d /\
                 first_at (day <$> forecasts first) q e) /\
  (exists v, value' = Some v /\ v <> "" /\ (v = "All" \/ v ∈ unique_dates)) /\
  (forall v, value = Some v -> v <> "" -> v ∈ unique_dates -> value' = value).
Proof.
  unfold RewriteUI._update_date_dropdown.
  destruct (unique_days_spec [] (forecasts first)) as (Hnd & Hin & Hsub).
  pose proof (unique_days_order [] (forecasts first)) as Horder.
  set (unique_dates := RewriteUI.unique_days [] (forecasts first)) in *.
  split; [exact Hnd|]. split.
  { intros x. rewrite Hin. split; [tauto|]. intros Hx. split; [exact Hx|]. intros Hn. inversion Hn. }
  split; [exact Hsub|]. split; [exact Horder|]. split.
  - destruct value as [v|]; simpl; [|exists "All"; split; [reflexivity | split; [discriminate | left; reflexivity]]].
    destruct (existsb (String.eqb v) unique_dates) eqn:Hv; simpl.
    + apply existsb_eqb_spec in Hv.
      destruct (String.eqb_spec v "") as [->|Hne].
      * exists "All". split; [reflexivity | split; [discriminate | left; reflexivity]].
      * exists v. split; [reflexivity | split; [exact Hne | right; exact Hv]].
    + destruct (String.eqb_spec v "All") as [->|Hne]; simpl.
      * exists "All". split; [reflexivity | split; [discriminate | left; reflexivity]].
      * exists "All". split; [reflexivity | split; [discriminate | left; reflexivity]].
  - intros v -> Hne Hv. apply existsb_eqb_spec in Hv. simpl. rewrite Hv. simpl.
    destruct (String.eqb_spec v ""); [contradiction | reflexivity].
Qed.

(** X19.  [render_weather_view] shows, in subregion order, one row per
    subregion that has an entry to show and never an empty row; with a
    selected day other than "All" every entry shown is of that day and
    every entry of that day is shown; with no selection, the empty one or
    "All", every entry is shown. *)
Theorem rendered_rows (sub_areas_data : list SubregionForecast) (selected_date : option string) :
  let rows := RewriteUI.render_weather_view sub_areas_data selected_date in
  let filtering := match selected_date with
                   | Some d => negb (String.eqb d "") && negb (String.eqb d "All")
                   | None => false
                   end in
  (forall row, row ∈ rows -> row.2 <> [] /\
     exists sf, sf ∈ sub_areas_data /\ row.1 = area_name sf /\
                row.2 `sublist_of` forecasts sf) /\
  (forall d, selected_date = Some d -> filtering = true ->
     rows = omap (fun sf => match filter (fun f => day f = d) (forecasts sf) with
                            | [] => None
                            | fs => Some (area_name sf, fs)
                            end) sub_areas_data) /\
  (filtering = false ->
     rows = (fun sf => (area_name sf, forecasts sf))
              <$> filter (fun sf => forecasts sf <> []) sub_areas_data).
Proof.
  cbv zeta. unfold RewriteUI.render_weather_view. split; [|split].
  - intros row Hrow. apply list_elem_of_omap in Hrow as (sf & Hsf & Hrow).
    destruct (Rewrite.list_truthy _) eqn:Ht; [|discriminate].
    injection Hrow as <-. simpl. split.
    + intros Hnil. rewrite Hnil in Ht. discriminate.
    + exists sf. split; [exact Hsf|]. split; [reflexivity|].
      destruct selected_date as [d|]; [|reflexivity].
      destruct (negb _ && negb _); [apply sublist_filter | reflexivity].
  - intros d -> Hf. rewrite Hf.
    induction sub_areas_data as [|sf rest IH]; [reflexivity|].
    cbn [omap list_omap]. rewrite IH.
    destruct (filter _ (forecasts sf)); reflexivity.
  - intros Hf.
    assert (Hall : forall sf,
              match selected_date with
              | Some d => if negb (String.eqb d "") && negb (String.eqb d "All")
                          then filter (fun f => day f = d) (forecasts sf) else forecasts sf
              | None => forecasts sf
              end = forecasts sf).
    { intros sf. destruct selected_date; [rewrite Hf|]; reflexivity. }
    induction sub_areas_data as [|sf rest IH]; [reflexivity|].
    cbn [omap list_omap]. rewrite Hall, filter_cons.
    destruct (decide (forecasts sf <> [])) as [Hne|He].
    + rewrite fmap_cons, <- IH.
      destruct (forecasts sf); [contradiction | reflexivity].
    + rewrite <- IH. destruct (forecasts sf); [reflexivity|].
      exfalso. apply He. discriminate.
Qed.

(** ** [fetch_weather_data] of [mfin.py] *)

Lemma name_of_id_spec (region_id : string) (l : list (string * string)) (name : string) :
  MfinApp.name_of_id region_id l = Some name ->
  exists before after,
    l = before ++ (name, region_id) :: after /\
    forall p, p ∈ before -> p.2 <> region_id.
Proof.
  unfold MfinApp.name_of_id. induction l as [|[n c] l IH]; simpl; [discriminate|].
  destruct (String.eqb_spec c region_id) as [->|Hne]; simpl.
  - intros [= <-]. exists [], l. split; [reflexivity|]. intros p Hp. inversion Hp.
  - intros Hfind. destruct (IH Hfind) as (before & after & -> & Hbefore).
    exists ((n, c) :: before), after. split; [reflexivity|].
    intros p Hp. apply elem_of_cons in Hp as [->|Hp]; [exact Hne | apply Hbefore, Hp].
Qed.

Section MfinFetch.
Context `{PyRuntime}.

Lemma no_weather_series_gives_empty_for_mfin (raw : json) :
  (forall l, weekly_series raw = Ok l ->
             Forall (fun s => first_area_has_key "weatherCodes" s = false) l) ->
  Mfin._parse_jma_data raw = Ok [].
Proof.
  unfold Mfin._parse_jma_data.
  apply (no_weather_series_generic _ _ _ mfin_icon_safe mfin_temperature_safe).
Qed.

(** X20.  [fetch_weather_data] of [mfin.py] answers [True] whenever the
    request succeeds and a non-empty region name has the asked code: it
    stores under the first such name whatever the normalizer returned, the
    empty list included (a document without weather series is reported as
    success with nothing to show).  It answers [False] and changes nothing
    when no name has the code or the request raised. *)
Theorem mfin_fetch_outcome (net : result json) (region_id : string) (dm : MfinApp.DataManager) :
  (forall raw name,
     net = Ok raw ->
     MfinApp.name_of_id region_id (MfinApp.name_to_id dm) = Some name ->
     name <> "" ->
     exists parsed,
       normalizer Lecture5 raw = Ok parsed /\
       MfinApp.fetch_weather_data net region_id dm =
         (Ok true,
          {| MfinApp.area_name_list := MfinApp.area_name_list dm;
             MfinApp.name_to_id := MfinApp.name_to_id dm;
             MfinApp.weather_data := <[name := parsed]> (MfinApp.weather_data dm) |}) /\
       exists before after,
         MfinApp.name_to_id dm = before ++ (name, region_id) :: after /\
         forall p, p ∈ before -> p.2 <> region_id) /\
  (forall raw name,
     net = Ok raw ->
     MfinApp.name_of_id region_id (MfinApp.name_to_id dm) = Some name ->
     name <> "" ->
     (forall l, weekly_series raw = Ok l ->
                Forall (fun s => first_area_has_key "weatherCodes" s = false) l) ->
     (MfinApp.fetch_weather_data net region_id dm).1 = Ok true /\
     MfinApp.weather_data (MfinApp.fetch_weather_data net region_id dm).2 !! name = Some []) /\
  (forall raw,
     net = Ok raw ->
     MfinApp.name_of_id region_id (MfinApp.name_to_id dm) = None \/
     MfinApp.name_of_id region_id (MfinApp.name_to_id dm) = Some "" ->
     MfinApp.fetch_weather_data net region_id dm = (Ok false, dm)) /\
  (forall e,
     net = Raise e -> is_Exception e = true ->
     MfinApp.fetch_weather_data net region_id dm = (Ok false, dm)).
Proof.
  assert (Htotal : forall raw, exists parsed, Mfin._parse_jma_data raw = Ok parsed).
  { intros raw. rewrite mfin_parse_total. destruct (parse_body _ _ _ raw); eauto. }
  unfold MfinApp.fetch_weather_data. split; [|split; [|split]].
  - intros raw name -> Hname Hne. destruct (Htotal raw) as (parsed & Hparsed).
    exists parsed. unfold normalizer. rewrite Hparsed, Hname.
    destruct (String.eqb_spec name ""); [contradiction|]. simpl.
    split; [reflexivity|]. split; [reflexivity|]. apply name_of_id_spec, Hname.
  - intros raw name -> Hname Hne Hno.
    pose proof (no_weather_series_gives_empty_for_mfin raw Hno) as Hempty.
    rewrite Hempty, Hname.
    destruct (String.eqb_spec name ""); [contradiction|]. simpl.
    split; [reflexivity | apply lookup_insert_eq].
  - intros raw -> Hname. destruct (Htotal raw) as (parsed & ->).
    destruct Hname as [-> | ->]; reflexivity.
  - intros e -> He. now rewrite He.
Qed.

End MfinFetch.

(** * The further properties on the sample documents *)

Lemma entries_carry_one_category_witness :
  exists res sf fe,
    @normalizer sample_runtime DbVer sample_raw = Ok res /\
    sf ∈ res /\ fe ∈ forecasts sf /\
    (icon fe, color fe, status fe) ∈ category_triples.
Proof.
  destruct (@normalizer sample_runtime DbVer sample_raw) as [res|e] eqn:Hres;
    [|vm_compute in Hres; discriminate].
  destruct res as [|sf res]; [vm_compute in Hres; discriminate|].
  destruct (forecasts sf) as [|fe fs] eqn:Hfs;
    [vm_compute in Hres; injection Hres as <- _; vm_compute in Hfs; discriminate|].
  exists (sf :: res), sf, fe.
  assert (Hsf : sf ∈ sf :: res) by apply list_elem_of_here.
  assert (Hfe : fe ∈ forecasts sf) by (rewrite Hfs; apply list_elem_of_here).
  repeat split; try assumption.
  exact (@entries_carry_one_category sample_runtime DbVer sample_raw _ sf fe Hres Hsf Hfe).
Defined.

(** Entry 1 of subregion 1 of the sample: code "500", day "1/12", and the
    temperature of the second area of the temperature series. *)
Lemma entry_by_position_witness :
  exists res sf fe,
    @normalizer sample_runtime DbVer sample_raw = Ok res /\
    res !! 1%nat = Some sf /\ forecasts sf !! 1%nat = Some fe /\
    status fe = "-" /\ area_name sf = JStr "伊豆諸島".
Proof.
  destruct (@normalizer sample_runtime DbVer sample_raw) as [res|e] eqn:Hres;
    [|vm_compute in Hres; discriminate].
  destruct (res !! 1%nat) as [sf|] eqn:Hsf;
    [|vm_compute in Hres; injection Hres as <-; vm_compute in Hsf; discriminate].
  destruct (forecasts sf !! 1%nat) as [fe|] eqn:Hfe;
    [|vm_compute in Hres; injection Hres as <-; vm_compute in Hsf;
      injection Hsf as <-; vm_compute in Hfe; discriminate].
  exists res, sf, fe. split; [reflexivity|]. split; [exact Hsf|]. split; [exact Hfe|].
  destruct (@entry_by_position sample_runtime DbVer sample_raw res 1 sf 1 fe Hres Hsf Hfe)
    as (ss & sm & ws & w & tt & wd & td & tds & t & areas & items & area & a & codes & code &
        _ & _ & Hws & Hsel & _ & _ & _ & _ & _ & Hareas & Hitems & Harea & Ha & Hname &
        Hcodes & Hcode & _ & Hstatus & _).
  vm_compute in Hws. injection Hws as <-.
  vm_compute in Hsel. injection Hsel as <- _.
  vm_compute in Hareas. injection Hareas as <-.
  vm_compute in Hitems. injection Hitems as <-.
  vm_compute in Harea. injection Harea as <-.
  vm_compute in Ha. injection Ha as <-.
  vm_compute in Hcodes. injection Hcodes as <-.
  vm_compute in Hcode. injection Hcode as <-.
  split; [rewrite Hstatus; reflexivity|].
  assert (Hn : Ok (area_name sf) = Ok (JStr "伊豆諸島")) by (rewrite <- Hname; reflexivity).
  injection Hn as Hn. exact Hn.
Defined.

Lemma last_matching_series_wins_witness :
  exists ws sel,
    weekly_series sample_raw = Ok ws /\
    select_series ws None None = Ok sel /\
    sel.1 = ws !! 0%nat /\ sel.2 = ws !! 1%nat.
Proof.
  destruct (weekly_series sample_raw) as [ws|e] eqn:Hws; [|vm_compute in Hws; discriminate].
  destruct (select_series ws None None) as [sel|e] eqn:Hsel;
    [|vm_compute in Hws; injection Hws as <-; vm_compute in Hsel; discriminate].
  exists ws, sel. split; [reflexivity|]. split; [exact Hsel|].
  destruct (last_matching_series_wins ws sel Hsel) as [H1 H2].
  rewrite H1, H2. vm_compute in Hws. injection Hws as <-. split; reflexivity.
Defined.

(** The sample with a date that is no ISO text *)
Lemma unreadable_date_gives_empty_witness :
  let bad_weather :=
    JDict [("timeDefines", JList [JStr "2025-01-11T00:00:00+09:00"; JStr "tomorrow"]);
           ("areas", JList [
              JDict [("area", area_obj "東京地方");
                     ("weatherCodes", JList [JStr "101"; JStr "200"])]])] in
  let raw := JList [sample_short; JDict [("timeSeries", JList [bad_weather])]] in
  @normalizer sample_runtime DbVer raw = Ok [] /\
  @normalizer sample_runtime Lecture5 raw = Ok [].
Proof.
  intros bad_weather raw.
  assert (Hw : weather_series raw = Ok (Some bad_weather)) by reflexivity.
  assert (Htd : getitem_key bad_weather "timeDefines"
                = Ok (JList [JStr "2025-01-11T00:00:00+09:00"; JStr "tomorrow"]))
    by reflexivity.
  assert (Hin : JStr "tomorrow" ∈ [JStr "2025-01-11T00:00:00+09:00"; JStr "tomorrow"])
    by (apply list_elem_of_further, list_elem_of_here).
  assert (Hbad : forall label, @iso_label sample_runtime (JStr "tomorrow") <> Ok label)
    by (intros label; vm_compute; discriminate).
  split.
  - exact (@unreadable_date_gives_empty sample_runtime DbVer raw bad_weather _ _ _
             Hw Htd eq_refl Hin Hbad).
  - exact (@unreadable_date_gives_empty sample_runtime Lecture5 raw bad_weather _ _ _
             Hw Htd eq_refl Hin Hbad).
Defined.

Lemma daily_single_temperature_witness :
  @display_temperature sample_runtime DbVer
     (Some (Daily (JList [JStr "7"; JStr ""]))) (JList []) 0 = Ok "7°C" /\
  @display_temperature sample_runtime Lecture5
     (Some (Daily (JList [JStr "7"; JStr ""]))) (JList []) 1 = Ok "--".
Proof.
  split.
  - destruct (@daily_single_temperature sample_runtime DbVer
                (JList [JStr "7"; JStr ""]) (JStr "7") (JList []) 0 eq_refl)
      as (_ & _ & Hs & _).
    apply (Hs "7" eq_refl). discriminate.
  - destruct (@daily_single_temperature sample_runtime Lecture5
                (JList [JStr "7"; JStr ""]) (JStr "") (JList []) 1 eq_refl)
      as (_ & _ & _ & He).
    apply He. left. reflexivity.
Defined.

Lemma short_term_table_from_first_series_witness :
  exists ss sm,
    short_series sample_raw = Ok ss /\
    short_term_temps ss = Ok sm /\
    length sm = 2%nat.
Proof.
  destruct (short_series sample_raw) as [ss|e] eqn:Hss; [|vm_compute in Hss; discriminate].
  destruct (short_term_temps ss) as [sm|e] eqn:Hsm;
    [|vm_compute in Hss; injection Hss as <-; vm_compute in Hsm; discriminate].
  exists ss, sm. split; [reflexivity|]. split; [exact Hsm|].
  pose proof (short_term_table_from_first_series ss sm Hsm) as Hfirst.
  vm_compute in Hss. injection Hss as <-.
  cbn in Hfirst.
  destruct Hfirst as (areas & items & Hareas & Hitems & Hlen & _).
  vm_compute in Hareas. injection Hareas as <-.
  vm_compute in Hitems. injection Hitems as <-.
  exact Hlen.
Defined.

(** The application after its first start on a new store, the network
    answering with the sample document *)
Lemma reachable_states_consistent_witness :
  let app := (@Rewrite.WeatherApp_init sample_runtime sample_names sample_ids
                (Ok sample_raw) sample_clock empty_db).2 in
  @Rewrite.reachable sample_runtime app /\
  NoDup (Rewrite.current_saved_regions app).
Proof.
  intros app.
  assert (Hreach : @Rewrite.reachable sample_runtime app) by apply Rewrite.reach_first.
  split; [exact Hreach|].
  exact (proj1 (@reachable_states_consistent sample_runtime app Hreach)).
Defined.

Lemma remove_region_effect_witness :
  let app := (@Rewrite.WeatherApp_init sample_runtime sample_names sample_ids
                (Ok sample_raw) sample_clock empty_db).2 in
  @Rewrite.reachable sample_runtime app /\
  "東京都" ∉ Rewrite.current_saved_regions (Rewrite.remove_region "東京都" app).
Proof.
  intros app.
  assert (Hreach : @Rewrite.reachable sample_runtime app) by apply Rewrite.reach_first.
  split; [exact Hreach|].
  exact (proj1 (@remove_region_effect sample_runtime app "東京都" Hreach)).
Defined.

(** The first start stores the sample forecast and persists one snapshot. *)
Example first_start_on_sample :
  let app := (@Rewrite.WeatherApp_init sample_runtime sample_names sample_ids
                (Ok sample_raw) sample_clock empty_db).2 in
  Rewrite.current_saved_regions app = ["東京都"] /\
  sa_area_name <$> saved_areas (Rewrite.db (Rewrite.data_manager app)) = ["東京都"] /\
  h_area_name <$> weather_history (Rewrite.db (Rewrite.data_manager app)) = ["東京都"] /\
  length (Rewrite.get_forecast_data "東京都" (Rewrite.data_manager app)) = 2%nat.
Proof. vm_compute. repeat split. Qed.

(** ** The store queries on the sample store *)





(** Two days, the first one met again later: it stays first. *)
Example dropdown_keeps_first_appearance :
  let entry d := {| day := d; icon := CLOUD; status := "くもり"; temp := "--"; color := GREY |} in
  RewriteUI._update_date_dropdown
    [{| area_name := JStr "東京地方";
        forecasts := [entry "1/11"; entry "1/12"; entry "1/11"] |}] (Some "1/13")
  = (["1/11"; "1/12"], Some "All").
Proof. reflexivity. Qed.

(** A registry with a repeated name: every occurrence is listed. *)
Example search_keeps_repeated_names :
  RewriteUI.search_results "京" ["東京都"; "京都府"; "大阪府"; "東京都"]
  = ["東京都"; "京都府"; "東京都"].
Proof. reflexivity. Qed.
